(** * BoltDepot supplier: a shallow embedding of [supplier_boltdepot.py]

    The scraper reads a product page that BeautifulSoup has parsed into a
    tree, and decodes a description, a category path, price breaks and
    parameters from it.  This file embeds the tree, the Python string and
    number primitives the scraper relies on, and the methods of the
    [BoltDepot] class, and proves properties of the decoders. *)

From Stdlib Require Import ZArith List String Ascii Bool Lia.
From Stdlib Require Import Floats.SpecFloat.
From stdpp Require Import base option list gmap strings fin_maps.

(** ** Exceptions

    Python code either returns a value or raises.  The exceptions that the
    scraper can meet are the ones below; [result] is the error monad that
    threads them through the methods. *)

Inductive exn : Type :=
| IndexError
| ValueError
| ZeroDivisionError
| OverflowError.

Inductive result (A : Type) : Type :=
| Ok (a : A)
| Raise (e : exn).

Arguments Ok {A} a.
Arguments Raise {A} e.

#[global] Instance result_ret : MRet result := fun A a => Ok a.
#[global] Instance result_bind : MBind result := fun A B f m =>
  match m with
  | Ok a => f a
  | Raise e => Raise e
  end.

(** ** Python [str] primitives

    Text is a [string]; its characters stand for the code points below 256. *)

Module Py.

Definition code (c : ascii) : N := N_of_ascii c.

(** [str.isspace] on one character; the same set is what [\s] matches in
    a [str] pattern. *)
Definition isspace (c : ascii) : bool :=
  let n := code c in
  ((9 <=? n) && (n <=? 13) || (28 <=? n) && (n <=? 32)
   || (n =? 133) || (n =? 160))%N.

Definition isdigit (c : ascii) : bool :=
  let n := code c in ((48 <=? n) && (n <=? 57))%N.

Definition lower_char (c : ascii) : ascii :=
  let n := code c in
  if ((65 <=? n) && (n <=? 90)
      || (192 <=? n) && (n <=? 222) && negb (n =? 215))%N
  then ascii_of_N (n + 32)
  else c.

(** [s.lower()] *)
Fixpoint lower (s : string) : string :=
  match s with
  | EmptyString => EmptyString
  | String c s' => String (lower_char c) (lower s')
  end.

(** [re.sub(r'\s+', ' ', s)]: [in_run] tells that the previous character
    was whitespace, already replaced by the single space. *)
Fixpoint sub_spaces (in_run : bool) (s : string) : string :=
  match s with
  | EmptyString => EmptyString
  | String c s' =>
      if isspace c
      then (if in_run then sub_spaces true s'
            else String " "%char (sub_spaces true s'))
      else String c (sub_spaces false s')
  end.

Fixpoint lstrip (s : string) : string :=
  match s with
  | EmptyString => EmptyString
  | String c s' => if isspace c then lstrip s' else s
  end.

Fixpoint rstrip (s : string) : string :=
  match s with
  | EmptyString => EmptyString
  | String c s' =>
      match rstrip s' with
      | EmptyString => if isspace c then EmptyString else String c EmptyString
      | r => String c r
      end
  end.

(** [s.strip()] *)
Definition strip (s : string) : string := rstrip (lstrip s).

(** [s.startswith(p)] *)
Definition startswith (s p : string) : bool := String.prefix p s.

(** [p in s] *)
Fixpoint contains (p s : string) : bool :=
  String.prefix p s
  || match s with
     | EmptyString => false
     | String _ s' => contains p s'
     end.

(** [s[n:]] for [n >= 0] *)
Fixpoint slice_from (n : nat) (s : string) : string :=
  match n, s with
  | O, _ => s
  | S n', EmptyString => EmptyString
  | S n', String _ s' => slice_from n' s'
  end.

(** [s.replace(c, '')] for a one-character [c] *)
Fixpoint remove_char (c : ascii) (s : string) : string :=
  match s with
  | EmptyString => EmptyString
  | String d s' =>
      if Ascii.eqb c d then remove_char c s' else String d (remove_char c s')
  end.

(** Every character of [s] passes [test]. *)
Fixpoint forall_chars (test : ascii -> bool) (s : string) : bool :=
  match s with
  | EmptyString => true
  | String c s' => test c && forall_chars test s'
  end.

(** Truth value of a [str]: false exactly for the empty one. *)
Definition truthy (s : string) : bool :=
  match s with EmptyString => false | _ => true end.

End Py.

(** ** The document tree of BeautifulSoup

    A [Tag] has a name, attributes and contents.  The value of a
    multi-valued attribute such as [class] is a list of tokens, of any other
    attribute a string.  A string of the page is a [NavigableString];
    [Comment] stands for the strings of the other classes (comments,
    declarations), which [get_text] leaves out. *)

Inductive attr_value : Type :=
| AttrStr (s : string)
| AttrList (l : list string).

#[local] Unset Elimination Schemes.
Inductive node : Type :=
| Tag (name : string) (attrs : list (string * attr_value)) (contents : list node)
| NavigableString (text : string)
| Comment (text : string).
#[local] Set Elimination Schemes.

Module Bs4.

Definition is_tag (n : node) : bool :=
  match n with Tag _ _ _ => true | _ => false end.

(** [tag.contents] *)
Definition contents (n : node) : list node :=
  match n with Tag _ _ cs => cs | _ => [] end.

(** [tag.descendants]: every node below [n], in document order. *)
Fixpoint descendants (n : node) : list node :=
  match n with
  | Tag _ _ cs => flat_map (fun c => c :: descendants c) cs
  | _ => []
  end.

(** [element.get_text()] *)
Fixpoint get_text (n : node) : string :=
  match n with
  | Tag _ _ cs => fold_right (fun c acc => get_text c +:+ acc) EmptyString cs
  | NavigableString s => s
  | Comment _ => EmptyString
  end.

(** [tag.get(key)] *)
Fixpoint get (attrs : list (string * attr_value)) (key : string)
  : option attr_value :=
  match attrs with
  | [] => None
  | (k, v) :: rest => if String.eqb k key then Some v else get rest key
  end.

Fixpoint join_space (l : list string) : string :=
  match l with
  | [] => EmptyString
  | [x] => x
  | x :: rest => x +:+ String " "%char (join_space rest)
  end.

(** How a filter [key=wanted] is matched against the attribute's value:
    a multi-valued attribute matches on any one token or on the tokens
    joined by spaces; an absent attribute matches only an empty filter. *)
Definition attr_matches (v : option attr_value) (wanted : string) : bool :=
  match v with
  | None => negb (Py.truthy wanted)
  | Some (AttrStr s) => String.eqb s wanted
  | Some (AttrList l) =>
      existsb (fun item => String.eqb item wanted) l
      || String.eqb (join_space l) wanted
  end.

Definition matches (name : string) (filters : list (string * string))
           (n : node) : bool :=
  match n with
  | Tag nm attrs _ =>
      String.eqb nm name
      && forallb (fun kv => attr_matches (get attrs (fst kv)) (snd kv)) filters
  | _ => false
  end.

(** [tag.find_all(name, **filters)] *)
Definition find_all (n : node) (name : string)
           (filters : list (string * string)) : list node :=
  List.filter (matches name filters) (descendants n).

(** [tag.find(name, **filters)]: the first match in document order. *)
Definition find (n : node) (name : string)
           (filters : list (string * string)) : option node :=
  List.find (matches name filters) (descendants n).

End Bs4.

(** ** Navigation: [_find_tag] and [_find_text] *)

(** One argument of [_find_tag]: a tuple of a tag name and an optional
    attribute dictionary, or a tag name alone. *)
Inductive step : Type :=
| StepTuple (tag_name : string) (attrs : option (list (string * string)))
| StepStr (tag_name : string).

Definition step_find (current_tag : node) (arg : step) : option node :=
  match arg with
  | StepTuple tag_name attrs =>
      Bs4.find current_tag tag_name (default [] attrs)
  | StepStr tag_name => Bs4.find current_tag tag_name []
  end.

Fixpoint _find_tag (tag : option node) (args : list step) : option node :=
  match args with
  | [] =>
      match tag with
      | Some current_tag => if Bs4.is_tag current_tag then tag else None
      | None => None
      end
  | arg :: rest =>
      match tag with
      | Some current_tag =>
          if Bs4.is_tag current_tag then
            match step_find current_tag arg with
            | None => None
            | Some found => _find_tag (Some found) rest
            end
          else None
      | None => None
      end
  end.

(** [l[0]] *)
Definition index0 {A : Type} (l : list A) : result A :=
  match l with
  | [] => Raise IndexError
  | x :: _ => Ok x
  end.

Definition clean_text (s : string) : string :=
  Py.strip (Py.sub_spaces false s).

Definition _find_text (tag : option node) (args : list step) : result string :=
  match _find_tag tag args with
  | Some found_tag =>
      first ← index0 (Bs4.contents found_tag);
      mret (clean_text (Bs4.get_text first))
  | None => mret EmptyString
  end.

(** ** Python numbers

    A [float] is an IEEE 754 binary64 number: [spec_float] at precision 53
    and maximal exponent 1024.  An [int] is a [Z]. *)

Module Num.

#[local] Open Scope Z_scope.

Definition prec : Z := 53.
Definition emax : Z := 1024.

Definition digit_value (c : ascii) : Z := Z.of_N (Py.code c) - 48.

(** The number written by a string of decimal digits, most significant
    first, continuing from [acc]. *)
Fixpoint digits_value (acc : Z) (ds : string) : Z :=
  match ds with
  | EmptyString => acc
  | String c ds' => digits_value (10 * acc + digit_value c) ds'
  end.

Definition all_digits (s : string) : bool := Py.forall_chars Py.isdigit s.

(** The longest prefix of digits, and what follows it. *)
Fixpoint span_digits (s : string) : string * string :=
  match s with
  | EmptyString => (EmptyString, EmptyString)
  | String c s' =>
      if Py.isdigit c
      then let '(ds, rest) := span_digits s' in (String c ds, rest)
      else (EmptyString, s)
  end.

(** Whitespace that [int] and [float] strip around a numeral: the ASCII
    whitespace, and the spaces above 127, which are first turned into
    an ASCII space. *)
Definition num_space (c : ascii) : bool :=
  let n := Py.code c in
  ((9 <=? n) && (n <=? 13) || (n =? 32) || (n =? 133) || (n =? 160))%N.

Fixpoint lstrip (s : string) : string :=
  match s with
  | EmptyString => EmptyString
  | String c s' => if num_space c then lstrip s' else s
  end.

Fixpoint rstrip (s : string) : string :=
  match s with
  | EmptyString => EmptyString
  | String c s' =>
      match rstrip s' with
      | EmptyString => if num_space c then EmptyString else String c EmptyString
      | r => String c r
      end
  end.

(** Underscores may group digits: each one stands between two digits,
    and is dropped.  [prev] is the previous character, if any. *)
Definition is_underscore (prev : option ascii) : bool :=
  match prev with Some p => Ascii.eqb p "_"%char | None => false end.

Definition is_digit (prev : option ascii) : bool :=
  match prev with Some p => Py.isdigit p | None => false end.

Fixpoint drop_underscores (prev : option ascii) (s : string) : option string :=
  match s with
  | EmptyString => if is_underscore prev then None else Some EmptyString
  | String c s' =>
      if Ascii.eqb c "_"%char then
        if is_digit prev then drop_underscores (Some c) s' else None
      else if is_underscore prev && negb (Py.isdigit c) then None
      else String c <$> drop_underscores (Some c) s'
  end.

(** A character that neither stripping nor the underscore rule touches. *)
Definition plain (c : ascii) : bool :=
  negb (num_space c) && negb (Ascii.eqb c "_"%char).

(** An optional sign; [true] is minus. *)
Definition split_sign (s : string) : bool * string :=
  match s with
  | String "-"%char s' => (true, s')
  | String "+"%char s' => (false, s')
  | _ => (false, s)
  end.

(** The most digits that [int] reads from a [str]
    ([sys.int_info.default_max_str_digits], CPython 3.10.7 and later). *)
Definition max_str_digits : Z := 4300.

(** [int(s)] for a [str].  A numeral of more than [max_str_digits] digits
    is refused with [ValueError]; leading zeros count as digits,
    underscores and the sign do not. *)
Definition py_int (s : string) : result Z :=
  match drop_underscores None (rstrip (lstrip s)) with
  | None => Raise ValueError
  | Some t =>
      let '(neg, ds) := split_sign t in
      if Py.truthy ds && all_digits ds
      then if Z.of_nat (String.length ds) <=? max_str_digits
           then Ok (if neg then - digits_value 0 ds else digits_value 0 ds)
           else Raise ValueError
      else Raise ValueError
  end.

(** The float nearest to [(-1)^neg * m * 10^e], ties to even; a value
    too large becomes an infinity. *)
Definition float_of_decimal (neg : bool) (m : Z) (e : Z) : spec_float :=
  match m with
  | Zpos p =>
      match e with
      | Zneg k =>
          SFdiv prec emax (S754_finite neg p 0)
                (S754_finite false (Z.to_pos (10 ^ Zpos k)) 0)
      | _ => binary_round prec emax neg (Z.to_pos (m * 10 ^ e)) 0
      end
  | _ => S754_zero neg
  end.

(** The exponent part of a numeral: [e] or [E], an optional sign and at
    least one digit; otherwise nothing is consumed. *)
Definition parse_exponent (s : string) : Z * string :=
  match s with
  | String c s' =>
      if Ascii.eqb c "e"%char || Ascii.eqb c "E"%char then
        let '(neg, t) := split_sign s' in
        let '(ds, rest) := span_digits t in
        if Py.truthy ds
        then (if neg then - digits_value 0 ds else digits_value 0 ds, rest)
        else (0, s)
      else (0, s)
  | EmptyString => (0, s)
  end.

(** A decimal numeral after its sign: digits, an optional point and more
    digits, with a digit somewhere, then an optional exponent.  Gives the
    digits as an integer, the power of ten, and the unread rest. *)
Definition parse_decimal (s : string) : option (Z * Z * string) :=
  let '(ip, rest) := span_digits s in
  let '(fp, rest) :=
    match rest with
    | String "."%char r => span_digits r
    | _ => (EmptyString, rest)
    end in
  if Py.truthy ip || Py.truthy fp then
    let '(ex, rest) := parse_exponent rest in
    Some (digits_value 0 (ip +:+ fp), ex - Z.of_nat (String.length fp), rest)
  else None.

(** [inf], [infinity] or [nan] in any case, after the sign. *)
Definition parse_inf_or_nan (neg : bool) (s : string) : option spec_float :=
  let t := Py.lower s in
  if String.eqb t "inf" || String.eqb t "infinity" then Some (S754_infinity neg)
  else if String.eqb t "nan" then Some S754_nan
  else None.

(** [float(s)] for a [str] *)
Definition py_float (s : string) : result spec_float :=
  match drop_underscores None s with
  | None => Raise ValueError
  | Some t =>
      let '(neg, body) := split_sign (rstrip (lstrip t)) in
      match parse_decimal body with
      | Some (m, e, EmptyString) => Ok (float_of_decimal neg m e)
      | Some (_, _, String _ _) => Raise ValueError
      | None =>
          match parse_inf_or_nan neg body with
          | Some x => Ok x
          | None => Raise ValueError
          end
      end
  end.

(** Conversion of an [int] operand to [float]: nearest, ties to even;
    [OverflowError] when the integer is too large. *)
Definition float_of_int (n : Z) : result spec_float :=
  match binary_normalize prec emax n 0 false with
  | S754_infinity _ => Raise OverflowError
  | x => Ok x
  end.

Definition is_zero (x : spec_float) : bool :=
  match x with S754_zero _ => true | _ => false end.

(** [x / n] for a [float] [x] and an [int] [n] *)
Definition truediv (x : spec_float) (n : Z) : result spec_float :=
  y ← float_of_int n;
  if is_zero y then Raise ZeroDivisionError
  else Ok (SFdiv prec emax x y).

(** Nearest integer to [a / b], ties to even, for [a >= 0] and [b > 0]. *)
Definition div_half_even (a b : Z) : Z :=
  let q := a / b in
  let r := a mod b in
  match 2 * r ?= b with
  | Lt => q
  | Gt => q + 1
  | Eq => if Z.even q then q else q + 1
  end.

(** [round(x, 3)]: the exact value of [x] is rounded to a multiple of
    1/1000, ties to even, and the float nearest to that is returned.
    Infinities, NaN and zeros round to themselves. *)
Definition round3 (x : spec_float) : spec_float :=
  match x with
  | S754_finite s m e =>
      let n :=
        match e with
        | Zneg k => div_half_even (Zpos m * 1000) (2 ^ Zpos k)
        | _ => Zpos m * 2 ^ e * 1000
        end in
      match n with
      | Zpos p =>
          SFdiv prec emax (S754_finite s p 0) (S754_finite false 1000 0)
      | _ => S754_zero s
      end
  | _ => x
  end.

End Num.

(** ** The [BoltDepot] supplier *)

Definition DOMAIN : string := "boltdepot.com".
Definition API_BASE_URL : string := "https://" +:+ DOMAIN +:+ "/".
Definition PRODUCT_URL (product : string) : string :=
  API_BASE_URL +:+ "Product-Details?product=" +:+ product.
Definition BARCODE_URL (product : string) : string :=
  "http://" +:+ DOMAIN +:+ "/Product-Details.aspx?product=" +:+ product.

Record ApiPart : Type := {
  description : string;
  image_url : string;
  datasheet_url : string;
  supplier_link : string;
  SKU : string;
  manufacturer : string;
  manufacturer_link : string;
  MPN : string;
  quantity_available : Z;
  packaging : string;
  category_path : list string;
  parameters : gmap string string;
  price_breaks : gmap Z spec_float;
  currency : string;
  barcode : string
}.

(** A [for] loop whose body updates the loop state or raises. *)
Fixpoint for_each {A S : Type} (body : S -> A -> result S)
         (items : list A) (s : S) : result S :=
  match items with
  | [] => Ok s
  | x :: rest => s' ← body s x; for_each body rest s'
  end.

(** [try: ... except ValueError: continue]: [None] stands for the
    [continue]; any other exception goes on. *)
Definition except_ValueError {A : Type} (r : result A) : result (option A) :=
  match r with
  | Ok a => Ok (Some a)
  | Raise ValueError => Ok None
  | Raise e => Raise e
  end.

Definition content_main_step : step :=
  StepTuple "div" (Some [("id", "content-main")]).

Definition is_product_page (soup : node) : result bool :=
  text ← _find_text (Some soup) [content_main_step; StepStr "a"];
  mret (String.eqb (Py.lower text) "product catalog").

Definition _get_description (content_main : node) : result string :=
  _find_text (Some content_main) [StepStr "h1"].

Definition ignore_properties : list string :=
  ["bolt depot"; "category"; "subcategory"].

(** The lookups of the two cells of a row of the details table. *)
Definition property_name_path : list step :=
  [StepTuple "td" (Some [("class", "property-name")])].
Definition property_value_path : list step :=
  [StepTuple "td" (Some [("class", "property-value")])].
Definition details_table_path : list step :=
  [StepTuple "table" (Some [("class", "product-details-table")])].

(** The body of the loop over the rows of the details table. *)
Definition parameters_row (parameters : gmap string string) (row : node)
  : result (gmap string string) :=
  property_name ← _find_text (Some row) property_name_path;
  property_value ← _find_text (Some row) property_value_path;
  if negb (Py.truthy property_name) || negb (Py.truthy property_value)
  then mret parameters
  else if existsb (fun property => Py.contains property (Py.lower property_name))
                  ignore_properties
  then mret parameters
  else mret (<[property_name := property_value]> parameters).

Definition _get_parameters (content_main : node) : result (gmap string string) :=
  match _find_tag (Some content_main) details_table_path with
  | None => mret ∅
  | Some product_details_table =>
      match Bs4.find_all product_details_table "tr" [] with
      | [] => mret ∅
      | product_details_rows => for_each parameters_row product_details_rows ∅
      end
  end.

(** The lot size that a quantity label stands for. *)
Definition adjusted_quantity_of (price_per_qty : string) : result Z :=
  if String.eqb price_per_qty "/ ea" then Ok 1%Z
  else Num.py_int (Py.remove_char ","%char (Py.slice_from 2 price_per_qty)).

(** The lookups of the two labels of a cell of the pricing row. *)
Definition price_break_path : list step :=
  [StepTuple "span" (Some [("class", "price-break")])].
Definition per_qty_path : list step :=
  [StepTuple "span" (Some [("class", "perQty")])].
Definition pricing_table_path : list step :=
  [StepTuple "table" (Some [("id", "product-list-table")])].
Definition pricing_row_path (part_id : string) : list step :=
  [StepTuple "tr" (Some [("id", "p" +:+ part_id)])].

(** The body of the loop over the cells of the pricing row. *)
Definition pricing_cell (price_breaks : gmap Z spec_float) (cell : node)
  : result (gmap Z spec_float) :=
  price_break ← _find_text (Some cell) price_break_path;
  price_per_qty ← _find_text (Some cell) per_qty_path;
  if negb (Py.truthy price_break) || negb (Py.truthy price_per_qty)
  then mret price_breaks
  else
    q ← except_ValueError (adjusted_quantity_of price_per_qty);
    match q with
    | None => mret price_breaks
    | Some adjusted_quantity =>
        p ← except_ValueError (Num.py_float (Py.slice_from 1 price_break));
        match p with
        | None => mret price_breaks
        | Some purchase_price =>
            unit_price ← Num.truediv purchase_price adjusted_quantity;
            mret (<[adjusted_quantity := Num.round3 unit_price]> price_breaks)
        end
    end.

Definition _get_pricing (content_main : node) (part_id : string)
  : result (gmap Z spec_float) :=
  match _find_tag (Some content_main) pricing_table_path with
  | None => mret ∅
  | Some pricing_table =>
      match _find_tag (Some pricing_table) (pricing_row_path part_id) with
      | None => mret ∅
      | Some pricing_row =>
          match Bs4.find_all pricing_row "td" [] with
          | [] => mret ∅
          | pricing_cells => for_each pricing_cell pricing_cells ∅
          end
      end
  end.

Definition _get_image_url (content_main : node) : string :=
  match _find_tag (Some content_main)
                  [StepTuple "div" (Some [("class", "row")]); StepStr "img"] with
  | Some (Tag _ attrs _) =>
      match Bs4.get attrs "src" with
      | Some (AttrStr url) =>
          if Py.truthy url then API_BASE_URL +:+ url else EmptyString
      | _ => EmptyString
      end
  | _ => EmptyString
  end.

(** [l[-1]] *)
Definition index_last {A : Type} (l : list A) : result A :=
  match last l with
  | Some x => Ok x
  | None => Raise IndexError
  end.

Definition double_quote : string := String (ascii_of_nat 34) EmptyString.

(** The search of the size pattern: a hash or a digit at the start, or any
    of [mm], a hash, [inch], a double quote anywhere. *)
Definition size_search (s : string) : bool :=
  match s with
  | String c _ => Ascii.eqb c "#"%char || Py.isdigit c
  | EmptyString => false
  end
  || Py.contains "mm" s || Py.contains "#" s || Py.contains "inch" s
  || Py.contains double_quote s.

(** The loop that collects the link texts, leaving the catalog root out. *)
Definition collect_links (nav_a_tags : list node) : list string :=
  fold_left
    (fun category_path tag =>
       if String.eqb (Py.lower (Bs4.get_text tag)) "product catalog"
       then category_path
       else category_path ++ [Bs4.get_text tag])
    nav_a_tags [].

Definition _get_category_path (content_main : node) : result (list string) :=
  match _find_tag (Some content_main) [StepStr "nav"] with
  | None => mret []
  | Some nav =>
      match Bs4.find_all nav "a" [] with
      | [] => mret []
      | nav_a_tags =>
          let category_path := collect_links nav_a_tags in
          last_text ← index_last category_path;
          let category_path :=
            if size_search last_text then removelast category_path
            else category_path in
          last_text ← index_last category_path;
          let category_path :=
            if Py.startswith last_text "Size: " then removelast category_path
            else category_path in
          mret category_path
      end
  end.

Definition _scrape_api_part (soup : node) (part_id : string)
  : result (option ApiPart) :=
  match _find_tag (Some soup) [content_main_step] with
  | None => mret None
  | Some content_main =>
      description ← _get_description content_main;
      if negb (Py.truthy description) then mret None
      else
        price_breaks ← _get_pricing content_main part_id;
        let image_url := _get_image_url content_main in
        parameters ← _get_parameters content_main;
        category_path ← _get_category_path content_main;
        match category_path with
        | [] => mret None
        | _ =>
            mret (Some {|
              description := description;
              image_url := image_url;
              datasheet_url := EmptyString;
              supplier_link := PRODUCT_URL part_id;
              SKU := part_id;
              manufacturer := "BoltDepot";
              manufacturer_link := PRODUCT_URL part_id;
              MPN := part_id;
              quantity_available := 0;
              packaging := EmptyString;
              category_path := category_path;
              parameters := parameters;
              price_breaks := price_breaks;
              currency := "USD";
              barcode := BARCODE_URL part_id |})
        end
  end.

(** ** [search]

    [scrape url attempt] is what the [attempt]-th call of [scrape(url)]
    gives: [None] when there is no usable response, otherwise the tree that
    the HTML parser builds from the response's content.  A run of [search]
    yields the warnings it logged and its result. *)

Section Search.

Variable scrape : string -> nat -> option node.

(** [for _ in range(n)]: the first usable response, from [attempt] on. *)
Fixpoint fetch (scrape_url : string) (attempt n : nat) : option node :=
  match n with
  | O => None
  | S n' =>
      match scrape scrape_url attempt with
      | Some page => Some page
      | None => fetch scrape_url (S attempt) n'
      end
  end.

Definition search (search_term : string)
  : list string * result (list ApiPart * nat) :=
  let scrape_url := PRODUCT_URL search_term in
  match fetch scrape_url 0 3 with
  | None =>
      (["failed to search part at BoltDepot (url " +:+ scrape_url
        +:+ " did not respond)"], Ok ([], 0))
  | Some soup =>
      match is_product_page soup with
      | Raise e => ([], Raise e)
      | Ok false => ([], Ok ([], 0))
      | Ok true =>
          match _scrape_api_part soup search_term with
          | Raise e => ([], Raise e)
          | Ok None =>
              (["failed to parse found part at BoltDepot (url " +:+ scrape_url
                +:+ ")"], Ok ([], 0))
          | Ok (Some api_part) => ([], Ok ([api_part], 1))
          end
      end
  end.

End Search.

(** ** Sample pages *)

Module Page.

(** An element that holds one string. *)
Definition elem (name : string) (attrs : list (string * attr_value))
           (text : string) : node :=
  Tag name attrs [NavigableString text].

Definition link (text : string) : node := elem "a" [] text.

Definition class (c : string) : list (string * attr_value) :=
  [("class", AttrList [c])].

Definition id (i : string) : list (string * attr_value) :=
  [("id", AttrStr i)].

(** The breadcrumb of a page, from the texts of its links. *)
Definition breadcrumb (texts : list string) : node :=
  Tag "nav" [] (link <$> texts).

Definition main (children : list node) : node :=
  Tag "div" (id "content-main") children.

(** A cell of the pricing row, from its two labels. *)
Definition price_cell (price_break per_qty : string) : node :=
  Tag "td" [] [elem "span" (class "price-break") price_break;
               elem "span" (class "perQty") per_qty].

(** The pricing table of part [part_id], from the cells of its row. *)
Definition pricing (part_id : string) (cells : list node) : node :=
  Tag "table" (id "product-list-table")
      [Tag "tr" (id ("p" +:+ part_id)) cells].

(** A row of the details table, from its two cells. *)
Definition detail_row (name value : list node) : node :=
  Tag "tr" [] [Tag "td" (class "property-name") name;
               Tag "td" (class "property-value") value].

Definition details (rows : list node) : node :=
  Tag "table" (class "product-details-table") rows.

(** The quantity label [/ 1] followed by 4300 zeros: a lot size written
    with 4301 digits. *)
Definition long_label : string :=
  "/ 1" +:+ string_of_list_ascii (repeat "0"%char 4300).

End Page.

(** ** The decoders as the specification words them *)

Module Spec.

Definition catalog_root : string := "product catalog".

(** The primary size heuristic: the text starts with a hash or with a
    digit, or contains [mm], a hash, [inch] or a double quote. *)
Definition looks_like_size (text : string) : bool :=
  Py.startswith text "#"
  || match text with String c _ => Py.isdigit c | EmptyString => false end
  || existsb (fun token => Py.contains token text)
             ["mm"; "#"; "inch"; double_quote].

Definition has_size_prefix (text : string) : bool :=
  Py.startswith text "Size: ".

(** Drop the last element of a path when there is one and it satisfies
    [test]. *)
Definition drop_last_if (test : string -> bool) (path : list string)
  : list string :=
  match last path with
  | Some text => if test text then removelast path else path
  | None => path
  end.

(** The link texts without the catalog root. *)
Definition without_root (link_texts : list string) : list string :=
  filter (fun text => Py.lower text ≠ catalog_root) link_texts.

Definition category_path (link_texts : list string) : list string :=
  drop_last_if has_size_prefix
    (drop_last_if looks_like_size (without_root link_texts)).

(** A row of the details table counts when both texts are non-empty and
    the lower-cased name holds none of the ignored words. *)
Definition row_counts (name value : string) : bool :=
  Py.truthy name && Py.truthy value
  && negb (existsb (fun word => Py.contains word (Py.lower name))
                   ["bolt depot"; "category"; "subcategory"]).





(** [x] is a positive binary64 float within half a unit in the last
    place of [num / den]. *)
Definition nearest_float (num den : Z) (x : spec_float) : Prop :=
  match x with
  | S754_finite false m (Zneg k) =>
      valid_binary Num.prec Num.emax x = true
      ∧ (2 * Z.abs (Zpos m * den - num * 2 ^ Zpos k) ≤ den)%Z
  | _ => False
  end.

(** A text in which whitespace is collapsed and trimmed: its only
    whitespace is single spaces, each between two other characters.
    [single_spaces] allows a space at the end, [collapsed_after] does
    not; [after_space] tells that the previous character was a space, or
    that the text starts here. *)
Fixpoint single_spaces (after_space : bool) (s : string) : bool :=
  match s with
  | EmptyString => true
  | String c s' =>
      if Py.isspace c
      then Ascii.eqb c " "%char && negb after_space && single_spaces true s'
      else single_spaces false s'
  end.

Fixpoint collapsed_after (after_space : bool) (s : string) : bool :=
  match s with
  | EmptyString => negb after_space
  | String c s' =>
      if Py.isspace c
      then Ascii.eqb c " "%char && negb after_space && collapsed_after true s'
      else collapsed_after false s'
  end.

Definition collapsed (s : string) : bool :=
  match s with
  | EmptyString => true
  | _ => collapsed_after true s
  end.


(** The price divided by the lot size: the lot size as the float nearest
    to it, and the quotient of the two floats as IEEE 754 rounds it. *)
Definition quotient (price : spec_float) (lot : Z) : spec_float :=
  SFdiv Num.prec Num.emax price
        (binary_normalize Num.prec Num.emax lot 0 false).

(** [k] thousandths is the value [m * 2^e] rounded to 3 decimal places:
    [k] is an integer nearest to [1000 * m * 2^e], the even one when two
    integers are as near. *)
Definition nearest_thousandth (m : positive) (e k : Z) : Prop :=
  let num := (1000 * Zpos m * 2 ^ Z.max e 0)%Z in
  let den := (2 ^ Z.max (- e) 0)%Z in
  (0 ≤ k)%Z
  ∧ (2 * Z.abs (num - k * den) ≤ den)%Z
  ∧ ((2 * Z.abs (num - k * den) = den)%Z → Z.even k = true).

(** The float nearest to [k / 1000], with the sign [s]. *)
Definition float_of_thousandths (s : bool) (k : Z) : spec_float :=
  match k with
  | Zpos p =>
      SFdiv Num.prec Num.emax (S754_finite s p 0) (S754_finite false 1000 0)
  | _ => S754_zero s
  end.

(** [y] is [x] rounded to 3 decimal places.  Zeros, infinities and NaN
    have no decimal places to round. *)
Definition rounded_to_3_places (x y : spec_float) : Prop :=
  match x with
  | S754_finite s m e =>
      ∃ k, nearest_thousandth m e k ∧ y = float_of_thousandths s k
  | _ => y = x
  end.

(** The float that Python writes [0.333]. *)
Definition float_0_333 : spec_float :=
  S754_finite false 5998794703657501 (-54).

(** The floats that Python writes [1.23], [0.012] and [0.23]. *)
Definition float_1_23 : spec_float :=
  S754_finite false 5539427541665710 (-52).
Definition float_0_012 : spec_float :=
  S754_finite false 6917529027641082 (-59).
Definition float_0_23 : spec_float :=
  S754_finite false 8286623314361713 (-55).

End Spec.

(** What a row of the details table with the texts [cell] does to the
    mapping, in the specification's words. *)
Definition add_row (parameters : gmap string string) (cell : string * string)
  : gmap string string :=
  if Spec.row_counts cell.1 cell.2 then <[cell.1 := cell.2]> parameters
  else parameters.

(** ** Notions used in the statements *)

(** Induction over a tree, with the property known for the contents. *)
Fixpoint node_induction (P : node → Prop)
         (HTag : ∀ name attrs contents,
             Forall P contents → P (Tag name attrs contents))
         (HString : ∀ text, P (NavigableString text))
         (HComment : ∀ text, P (Comment text))
         (n : node) : P n :=
  match n with
  | Tag name attrs contents =>
      HTag name attrs contents
           ((fix contents_induction (cs : list node) : Forall P cs :=
               match cs with
               | [] => @List.Forall_nil node P
               | c :: cs' =>
                   @List.Forall_cons node P c cs'
                     (node_induction P HTag HString HComment c)
                     (contents_induction cs')
               end) contents)
  | NavigableString text => HString text
  | Comment text => HComment text
  end.

(** The tag name and the attribute filters that a step asks for. *)
Definition step_name (arg : step) : string :=
  match arg with
  | StepTuple tag_name _ => tag_name
  | StepStr tag_name => tag_name
  end.

Definition step_filters (arg : step) : list (string * string) :=
  match arg with
  | StepTuple _ attrs => default [] attrs
  | StepStr _ => []
  end.

(** [inner] is [outer] or lies below it. *)
Definition within (inner outer : node) : Prop :=
  inner = outer ∨ In inner (Bs4.descendants outer).

(** The lookup [args] from [tag] ends at a tag without contents. *)
Definition empty_tag_at (tag : node) (args : list step) : Prop :=
  ∃ found, _find_tag (Some tag) args = Some found ∧ Bs4.contents found = [].

(** The cell [cell] decodes to the entry [lot -> unit_price]: its price
    label without the first character reads as a float, its quantity label
    as the lot size, and the unit price is their quotient rounded to 3
    decimal places. *)
Definition priced_by (cell : node) (lot : Z) (unit_price : spec_float) : Prop :=
  ∃ c rest qty price quotient,
    _find_text (Some cell) price_break_path = Ok (String c rest)
    ∧ _find_text (Some cell) per_qty_path = Ok qty
    ∧ adjusted_quantity_of qty = Ok lot
    ∧ Num.py_float rest = Ok price
    ∧ Num.truediv price lot = Ok quotient
    ∧ unit_price = Num.round3 quotient.

(** ** The error monad *)

Lemma bind_Ok {A B : Type} (a : A) (f : A → result B) : Ok a ≫= f = f a.
Proof. reflexivity. Qed.

Lemma bind_Raise {A B : Type} (e : exn) (f : A → result B) :
  Raise e ≫= f = Raise e.
Proof. reflexivity. Qed.

(** ** Navigation *)

Lemma _find_text_unresolved tag args :
  _find_tag tag args = None → _find_text tag args = Ok EmptyString.
Proof. intros H. unfold _find_text. by rewrite H. Qed.

Lemma _find_text_first_child tag args found first rest :
  _find_tag tag args = Some found →
  Bs4.contents found = first :: rest →
  _find_text tag args = Ok (clean_text (Bs4.get_text first)).
Proof. intros H Hc. unfold _find_text. by rewrite H, Hc. Qed.

Lemma _find_tag_is_tag tag args found :
  _find_tag tag args = Some found → Bs4.is_tag found = true.
Proof.
  revert tag. induction args as [|arg rest IH]; intros tag H; simpl in H.
  - destruct tag as [t|]; [|done].
    destruct (Bs4.is_tag t) eqn:E; by simplify_eq.
  - destruct tag as [t|]; [|done].
    destruct (Bs4.is_tag t); [|done].
    destruct (step_find t arg); [|done]. eauto.
Qed.

(** *** The cleaning of a text *)

Lemma sub_spaces_single in_run s :
  Spec.single_spaces in_run (Py.sub_spaces in_run s) = true.
Proof.
  revert in_run. induction s as [|c s IH]; intros in_run; [done|].
  cbn [Py.sub_spaces]. destruct (Py.isspace c) eqn:E.
  - destruct in_run; [apply IH|].
    cbn [Spec.single_spaces].
    change (Py.isspace " "%char) with true. cbv iota. by rewrite IH.
  - cbn [Spec.single_spaces]. rewrite E. apply IH.
Qed.

Lemma single_spaces_head after_space c s :
  Py.isspace c = false →
  Spec.single_spaces after_space (String c s)
  = Spec.single_spaces true (String c s).
Proof. intros E. cbn [Spec.single_spaces]. by rewrite E. Qed.

Lemma lstrip_single after_space s :
  Spec.single_spaces after_space s = true →
  Spec.single_spaces true (Py.lstrip s) = true.
Proof.
  destruct s as [|c s]; [done|]. cbn [Py.lstrip].
  destruct (Py.isspace c) eqn:E.
  - cbn [Spec.single_spaces]. rewrite E, !andb_true_iff.
    intros [_ Hs]. destruct s as [|d s]; [done|].
    cbn [Py.lstrip]. destruct (Py.isspace d) eqn:Ed; [|done].
    cbn [Spec.single_spaces] in Hs. rewrite Ed in Hs.
    by rewrite andb_false_r in Hs.
  - by rewrite single_spaces_head.
Qed.

Lemma rstrip_collapsed after_space s :
  Spec.single_spaces after_space s = true →
  match Py.rstrip s with
  | EmptyString => True
  | String _ _ as r => Spec.collapsed_after after_space r = true
  end.
Proof.
  revert after_space. induction s as [|c s IH]; intros after_space; [done|].
  cbn [Spec.single_spaces Py.rstrip]. destruct (Py.isspace c) eqn:E.
  - rewrite !andb_true_iff. intros [[Hc Hb] Hs]. specialize (IH _ Hs).
    destruct (Py.rstrip s) as [|d r]; [done|].
    cbn [Spec.collapsed_after] in IH |- *. by rewrite E, Hc, Hb.
  - intros Hs. specialize (IH _ Hs).
    destruct (Py.rstrip s) as [|d r].
    + cbn [Spec.collapsed_after]. by rewrite E.
    + cbn [Spec.collapsed_after] in IH |- *. by rewrite E.
Qed.

(** A cleaned text has no whitespace but single spaces between other
    characters. *)
Lemma clean_text_collapsed s : Spec.collapsed (clean_text s) = true.
Proof.
  unfold clean_text, Py.strip, Spec.collapsed.
  pose proof (rstrip_collapsed true _
                (lstrip_single _ _ (sub_spaces_single false s))) as H.
  by destruct (Py.rstrip _).
Qed.

(** Whatever [_find_text] returns is a cleaned text. *)
Lemma _find_text_collapsed tag args text :
  _find_text tag args = Ok text → Spec.collapsed text = true.
Proof.
  unfold _find_text. destruct (_find_tag tag args) as [found|].
  - destruct (index0 _) as [first|e]; [|done]. rewrite bind_Ok.
    intros [= <-]. apply clean_text_collapsed.
  - by intros [= <-].
Qed.

(** C3: when the path resolves to a tag without contents, [_find_text]
    does not return the empty string: indexing the first child raises
    [IndexError]. *)
Theorem _find_text_empty_tag_raises tag args found :
  _find_tag tag args = Some found →
  Bs4.contents found = [] →
  _find_text tag args = Raise IndexError.
Proof. intros H Hc. unfold _find_text. by rewrite H, Hc. Qed.

Lemma _find_text_empty_tag_raises_witness :
  _find_text (Some (Page.main [Tag "h1" [] []])) [StepStr "h1"]
  = Raise IndexError.
Proof.
  apply (_find_text_empty_tag_raises _ _ (Tag "h1" [] [])); reflexivity.
Defined.

(** ** The category path *)

Lemma collect_links_from acc tags :
  fold_left
    (fun category_path tag =>
       if String.eqb (Py.lower (Bs4.get_text tag)) "product catalog"
       then category_path
       else category_path ++ [Bs4.get_text tag])
    tags acc
  = acc ++ Spec.without_root (Bs4.get_text <$> tags).
Proof.
  revert acc. induction tags as [|tag tags IH]; intros acc.
  - simpl. by rewrite app_nil_r.
  - cbn [fold_left]. rewrite IH. unfold Spec.without_root.
    rewrite fmap_cons, filter_cons.
    destruct (String.eqb_spec (Py.lower (Bs4.get_text tag)) "product catalog")
      as [E|E]; case_decide; try done.
    by rewrite <- app_assoc.
Qed.

Lemma collect_links_without_root tags :
  collect_links tags = Spec.without_root (Bs4.get_text <$> tags).
Proof. apply (collect_links_from []). Qed.

Lemma prefix_single a c text :
  String.prefix (String a EmptyString) (String c text) = Ascii.eqb c a.
Proof.
  cbn [String.prefix]. destruct (ascii_dec a c) as [->|H].
  - rewrite Ascii.eqb_refl. by destruct text.
  - symmetry. apply Ascii.eqb_neq. congruence.
Qed.

Lemma size_search_looks_like_size text :
  size_search text = Spec.looks_like_size text.
Proof.
  unfold size_search, Spec.looks_like_size, Py.startswith. cbn [existsb].
  generalize (Py.contains "mm" text) (Py.contains "#" text)
             (Py.contains "inch" text) (Py.contains double_quote text).
  intros b1 b2 b3 b4. destruct text as [|c text'].
  - by destruct b1, b2, b3, b4.
  - rewrite prefix_single.
    by destruct (Ascii.eqb c "#"), (Py.isdigit c), b1, b2, b3, b4.
Qed.

Lemma index_last_snoc {A : Type} (l : list A) (x : A) :
  index_last (l ++ [x]) = Ok x.
Proof. unfold index_last. by rewrite last_snoc. Qed.

Lemma index_last_nonempty {A : Type} (l : list A) :
  l ≠ [] → ∃ x, last l = Some x ∧ index_last l = Ok x.
Proof.
  intros H. destruct (last l) as [x|] eqn:E.
  - exists x. unfold index_last. by rewrite E.
  - by apply last_None in E.
Qed.

(** The decoder in terms of the link texts: what it does once the
    breadcrumb is found and holds a link. *)
Lemma _get_category_path_links content_main nav tag tags :
  _find_tag (Some content_main) [StepStr "nav"] = Some nav →
  Bs4.find_all nav "a" [] = tag :: tags →
  _get_category_path content_main =
    (let path := Spec.without_root (Bs4.get_text <$> tag :: tags) in
     last_text ← index_last path;
     let path := if Spec.looks_like_size last_text then removelast path else path in
     last_text ← index_last path;
     mret (if Spec.has_size_prefix last_text then removelast path else path)).
Proof.
  intros Hnav Hall. unfold _get_category_path. rewrite Hnav, Hall.
  rewrite collect_links_without_root. cbv zeta.
  destruct (index_last _) as [t|e]; simpl; [|done].
  rewrite size_search_looks_like_size.
  destruct (index_last _) as [t'|e]; simpl; done.
Qed.

Lemma _get_category_path_no_nav content_main :
  _find_tag (Some content_main) [StepStr "nav"] = None →
  _get_category_path content_main = Ok [].
Proof. intros H. unfold _get_category_path. by rewrite H. Qed.

Lemma _get_category_path_no_links content_main nav :
  _find_tag (Some content_main) [StepStr "nav"] = Some nav →
  Bs4.find_all nav "a" [] = [] →
  _get_category_path content_main = Ok [].
Proof. intros H Ha. unfold _get_category_path. by rewrite H, Ha. Qed.

Lemma without_root_all_root texts :
  Forall (fun text => Py.lower text = Spec.catalog_root) texts →
  Spec.without_root texts = [].
Proof.
  unfold Spec.without_root. induction 1 as [|text texts Hx _ IH]; [done|].
  rewrite filter_cons. by case_decide.
Qed.

(** C1: a breadcrumb whose links all read as the catalog root leaves the
    path empty, and the unguarded look at its last element raises
    [IndexError] instead of giving the empty sequence. *)
Theorem _get_category_path_only_root_raises content_main nav :
  _find_tag (Some content_main) [StepStr "nav"] = Some nav →
  Bs4.find_all nav "a" [] ≠ [] →
  Forall (fun tag => Py.lower (Bs4.get_text tag) = "product catalog")
         (Bs4.find_all nav "a" []) →
  _get_category_path content_main = Raise IndexError.
Proof.
  intros Hnav Hne Hall.
  destruct (Bs4.find_all nav "a" []) as [|tag tags] eqn:E; [done|].
  rewrite (_get_category_path_links _ _ _ _ Hnav E).
  assert (Spec.without_root (Bs4.get_text <$> tag :: tags) = []) as ->; [|done].
  apply without_root_all_root, Forall_fmap.
  eapply Forall_impl; [exact Hall|]. intros x Hx. exact Hx.
Qed.

Lemma _get_category_path_only_root_raises_witness :
  _get_category_path (Page.main [Page.breadcrumb ["Product Catalog"]])
  = Raise IndexError.
Proof.
  apply (_get_category_path_only_root_raises _
           (Page.breadcrumb ["Product Catalog"])).
  - reflexivity.
  - discriminate.
  - repeat constructor.
Defined.

Lemma drop_last_if_index (test : string → bool) (path : list string) text :
  last path = Some text →
  Spec.drop_last_if test path = if test text then removelast path else path.
Proof. intros H. unfold Spec.drop_last_if. by rewrite H. Qed.

(** The decoder agrees with the specification's pipeline whenever each of
    the two trailing-element checks has an element to look at. *)
Lemma _get_category_path_refines content_main nav :
  _find_tag (Some content_main) [StepStr "nav"] = Some nav →
  Spec.without_root (Bs4.get_text <$> Bs4.find_all nav "a" []) ≠ [] →
  Spec.drop_last_if Spec.looks_like_size
    (Spec.without_root (Bs4.get_text <$> Bs4.find_all nav "a" [])) ≠ [] →
  _get_category_path content_main
  = Ok (Spec.category_path (Bs4.get_text <$> Bs4.find_all nav "a" [])).
Proof.
  intros Hnav Hkept Hdrop.
  destruct (Bs4.find_all nav "a" []) as [|tag tags] eqn:E; [done|].
  rewrite (_get_category_path_links _ _ _ _ Hnav E). cbv zeta.
  unfold Spec.category_path.
  generalize dependent (Spec.without_root (Bs4.get_text <$> tag :: tags)).
  intros kept Hkept Hdrop.
  destruct (index_last_nonempty _ Hkept) as (t1 & Hl1 & ->).
  rewrite (drop_last_if_index _ _ _ Hl1) in Hdrop |- *. rewrite bind_Ok.
  destruct (index_last_nonempty _ Hdrop) as (t2 & Hl2 & ->).
  by rewrite bind_Ok, (drop_last_if_index _ _ _ Hl2).
Qed.

(** Whatever path the decoder returns is the one of the specification's
    pipeline. *)
Lemma _get_category_path_returns content_main nav path :
  _find_tag (Some content_main) [StepStr "nav"] = Some nav →
  _get_category_path content_main = Ok path →
  path = Spec.category_path (Bs4.get_text <$> Bs4.find_all nav "a" []).
Proof.
  intros Hnav.
  destruct (Bs4.find_all nav "a" []) as [|tag tags] eqn:E.
  - rewrite (_get_category_path_no_links _ _ Hnav E). by intros [= <-].
  - rewrite (_get_category_path_links _ _ _ _ Hnav E). cbv zeta.
    unfold Spec.category_path.
    generalize (Spec.without_root (Bs4.get_text <$> tag :: tags)).
    intros kept. unfold index_last, Spec.drop_last_if.
    destruct (last kept) as [t1|]; [|done]. rewrite bind_Ok. cbv beta iota.
    destruct (last _) as [t2|]; [|done]. rewrite bind_Ok.
    by intros [= <-].
Qed.

(** Where the decoder returns, it does what the steps say: it collects
    the link texts in document order, leaves out the entries that read as
    the catalog root, drops the last element if it looks like a size, then
    drops the last element if it starts with [Size: ].  The first part
    says that the decoder returns that path whenever each of the two
    checks has a last element to look at, the second that no other path is
    ever returned. *)
Lemma _get_category_path_decodes :
  (∀ content_main nav,
     _find_tag (Some content_main) [StepStr "nav"] = Some nav →
     Spec.without_root (Bs4.get_text <$> Bs4.find_all nav "a" []) ≠ [] →
     Spec.drop_last_if Spec.looks_like_size
       (Spec.without_root (Bs4.get_text <$> Bs4.find_all nav "a" [])) ≠ [] →
     _get_category_path content_main
     = Ok (Spec.drop_last_if Spec.has_size_prefix
             (Spec.drop_last_if Spec.looks_like_size
                (filter (fun text => Py.lower text ≠ "product catalog")
                        (Bs4.get_text <$> Bs4.find_all nav "a" [])))))
  ∧ (∀ content_main nav path,
       _find_tag (Some content_main) [StepStr "nav"] = Some nav →
       _get_category_path content_main = Ok path →
       path
       = Spec.drop_last_if Spec.has_size_prefix
           (Spec.drop_last_if Spec.looks_like_size
              (filter (fun text => Py.lower text ≠ "product catalog")
                      (Bs4.get_text <$> Bs4.find_all nav "a" []))))
  ∧ _get_category_path
      (Page.main [Page.breadcrumb
                    ["Product Catalog"; "Bolts"; "Hex Bolts"; "3mm x 0.5mm"]])
    = Ok ["Bolts"; "Hex Bolts"].
Proof.
  split; [|split].
  - intros content_main nav. apply _get_category_path_refines.
  - intros content_main nav path. apply _get_category_path_returns.
  - reflexivity.
Qed.

Lemma _get_category_path_decodes_witness :
  _get_category_path
    (Page.main [Page.breadcrumb
                  ["Product Catalog"; "Nuts"; "Size: M4"; "#4 thread"]])
  = Ok ["Nuts"].
Proof.
  apply (proj1 _get_category_path_decodes _
           (Page.breadcrumb ["Product Catalog"; "Nuts"; "Size: M4"; "#4 thread"]));
    [reflexivity | discriminate | discriminate].
Defined.

(** C4 does not hold as worded: on the breadcrumb Product Catalog,
    Bolts, Size: 1/4 inch the trailing element is dropped, but it is not
    true that it misses the primary size heuristic. *)
Lemma size_prefixed_inch_not_missed :
  ¬ (_get_category_path
       (Page.main [Page.breadcrumb
                     ["Product Catalog"; "Bolts"; "Size: 1/4 inch"]])
     = Ok ["Bolts"]
     ∧ Spec.looks_like_size "Size: 1/4 inch" = false).
Proof. intros [_ H]. vm_compute in H. discriminate. Qed.

(** C4, amended: when the last remaining element is [Size: 1/4 inch] and
    another element remains before it, that trailing element matches the
    primary size heuristic (it contains [inch]) and is dropped by it; what
    is returned is the rest, after the check of the [Size: ] prefix on the
    element that is last then. *)
Theorem _get_category_path_size_inch content_main nav rest :
  _find_tag (Some content_main) [StepStr "nav"] = Some nav →
  Spec.without_root (Bs4.get_text <$> Bs4.find_all nav "a" [])
  = rest ++ ["Size: 1/4 inch"] →
  rest ≠ [] →
  Spec.looks_like_size "Size: 1/4 inch" = true
  ∧ _get_category_path content_main
    = Ok (Spec.drop_last_if Spec.has_size_prefix rest).
Proof.
  intros Hnav Hkept Hrest.
  assert (Spec.looks_like_size "Size: 1/4 inch" = true) as Hsize
    by (vm_compute; reflexivity).
  split; [exact Hsize|].
  assert (Spec.drop_last_if Spec.looks_like_size (rest ++ ["Size: 1/4 inch"])
          = rest) as Hdrop.
  { rewrite (drop_last_if_index _ _ "Size: 1/4 inch") by apply last_snoc.
    rewrite Hsize. apply removelast_last. }
  rewrite (_get_category_path_refines _ _ Hnav).
  - unfold Spec.category_path. by rewrite Hkept, Hdrop.
  - rewrite Hkept. by destruct rest.
  - by rewrite Hkept, Hdrop.
Qed.

Lemma _get_category_path_size_inch_witness :
  Spec.looks_like_size "Size: 1/4 inch" = true
  ∧ _get_category_path
      (Page.main [Page.breadcrumb
                    ["Product Catalog"; "Bolts"; "Size: 1/4 inch"]])
    = Ok ["Bolts"].
Proof.
  apply (_get_category_path_size_inch _
           (Page.breadcrumb ["Product Catalog"; "Bolts"; "Size: 1/4 inch"])
           ["Bolts"]);
    [reflexivity | reflexivity | discriminate].
Defined.

(** ** Loops *)

Lemma for_each_app {A S : Type} (body : S → A → result S) l1 l2 s :
  for_each body (l1 ++ l2) s = (s' ← for_each body l1 s; for_each body l2 s').
Proof.
  revert s. induction l1 as [|x l1 IH]; intros s; [done|].
  cbn [for_each app]. destruct (body s x) as [s'|e]; [|done].
  rewrite !bind_Ok. apply IH.
Qed.

(** A loop whose body never raises is a fold. *)
Lemma for_each_pure {A B S : Type} (body : S → A → result S)
      (f : S → B → S) (items : list A) (values : list B) s :
  Forall2 (fun x v => ∀ s, body s x = Ok (f s v)) items values →
  for_each body items s = Ok (fold_left f values s).
Proof.
  intros H. revert s. induction H as [|x v items values Hx _ IH]; intros s.
  - done.
  - cbn [for_each fold_left]. rewrite Hx, bind_Ok. apply IH.
Qed.

(** ** The parameters *)

Lemma parameters_row_texts parameters row name value :
  _find_text (Some row) property_name_path = Ok name →
  _find_text (Some row) property_value_path = Ok value →
  parameters_row parameters row = Ok (add_row parameters (name, value)).
Proof.
  intros Hn Hv. unfold parameters_row, add_row, Spec.row_counts.
  rewrite Hn, Hv, !bind_Ok. cbn [fst snd].
  change ignore_properties with ["bolt depot"; "category"; "subcategory"].
  destruct (Py.truthy name), (Py.truthy value); try done.
  cbn [negb orb andb]. by destruct (existsb _ _).
Qed.

Lemma add_rows_app cells1 cells2 m :
  fold_left add_row (cells1 ++ cells2) m
  = fold_left add_row cells2 (fold_left add_row cells1 m).
Proof. apply fold_left_app. Qed.

Lemma add_rows_untouched cells m key :
  (∀ value, (key, value) ∈ cells → Spec.row_counts key value = false) →
  fold_left add_row cells m !! key = m !! key.
Proof.
  revert m. induction cells as [|[n v] cells IH]; intros m H; [done|].
  cbn [fold_left]. rewrite IH.
  - unfold add_row. cbn [fst snd].
    destruct (Spec.row_counts n v) eqn:E; [|done].
    apply lookup_insert_ne. intros ->.
    rewrite H in E; [done|]. by left.
  - intros value Hin. apply H. by right.
Qed.

Lemma add_rows_is_Some cells m key :
  is_Some (fold_left add_row cells m !! key)
  ↔ is_Some (m !! key)
    ∨ ∃ value, (key, value) ∈ cells ∧ Spec.row_counts key value = true.
Proof.
  revert m. induction cells as [|[n v] cells IH]; intros m.
  - cbn [fold_left]. split; [by left|].
    intros [H|(value & Hin & _)]; [done|]. by apply elem_of_nil in Hin.
  - cbn [fold_left]. rewrite IH. unfold add_row. cbn [fst snd]. split.
    + intros [H|(value & Hin & Hc)].
      * destruct (Spec.row_counts n v) eqn:E; [|by left].
        destruct (decide (n = key)) as [->|Hne].
        -- right. exists v. split; [by left|done].
        -- left. by rewrite lookup_insert_ne in H.
      * right. exists value. split; [by right|done].
    + intros [H|(value & Hin & Hc)].
      * left. destruct (Spec.row_counts n v); [|done].
        destruct (decide (n = key)) as [->|Hne].
        -- rewrite lookup_insert_eq. by eexists.
        -- by rewrite lookup_insert_ne.
      * apply elem_of_cons in Hin as [Heq|Hin].
        -- simplify_eq. left. rewrite Hc, lookup_insert_eq. by eexists.
        -- right. eauto.
Qed.

Lemma parameters_row_returns parameters row parameters' :
  parameters_row parameters row = Ok parameters' →
  ∃ name value,
    _find_text (Some row) property_name_path = Ok name
    ∧ _find_text (Some row) property_value_path = Ok value
    ∧ parameters' = add_row parameters (name, value).
Proof.
  intros H.
  destruct (_find_text (Some row) property_name_path) as [name|e] eqn:Hn;
    [|by unfold parameters_row in H; rewrite Hn in H].
  destruct (_find_text (Some row) property_value_path) as [value|e] eqn:Hv;
    [|by unfold parameters_row in H; rewrite Hn, Hv in H].
  exists name, value. rewrite (parameters_row_texts _ _ _ _ Hn Hv) in H.
  by simplify_eq.
Qed.

(** The loop over the rows returns only if every cell lookup returned, and
    then with the mapping of the rows' texts. *)
Lemma parameters_rows_return rows parameters parameters' :
  for_each parameters_row rows parameters = Ok parameters' →
  ∃ cells : list (string * string),
    Forall2 (fun row cell =>
               _find_text (Some row) property_name_path = Ok cell.1
               ∧ _find_text (Some row) property_value_path = Ok cell.2)
            rows cells
    ∧ parameters' = fold_left add_row cells parameters.
Proof.
  revert parameters. induction rows as [|row rows IH]; intros parameters.
  - intros [= <-]. exists []. by split.
  - cbn [for_each].
    destruct (parameters_row parameters row) as [p1|e] eqn:E; [|done].
    rewrite bind_Ok. intros H.
    destruct (parameters_row_returns _ _ _ E) as (n & v & Hn & Hv & ->).
    destruct (IH _ H) as (cells & Hall & ->).
    exists ((n, v) :: cells). split; [|done]. by constructor.
Qed.

(** Where every cell lookup returns a text, a row of the details table
    enters the mapping exactly when both of its cells give non-empty text
    and the lower-cased name holds none of [bolt depot], [category],
    [subcategory]; among rows of one name the last one wins; an absent
    table or a table without rows gives the empty mapping.  The last part
    says that a mapping is returned only when every cell lookup of every
    row returned a text. *)
Lemma _get_parameters_rows content_main :
  (_find_tag (Some content_main) details_table_path = None →
   _get_parameters content_main = Ok ∅)
  ∧ (∀ table,
       _find_tag (Some content_main) details_table_path = Some table →
       Bs4.find_all table "tr" [] = [] →
       _get_parameters content_main = Ok ∅)
  ∧ (∀ table (cells : list (string * string)),
       _find_tag (Some content_main) details_table_path = Some table →
       Forall2 (fun row cell =>
                  _find_text (Some row) property_name_path = Ok cell.1
                  ∧ _find_text (Some row) property_value_path = Ok cell.2)
               (Bs4.find_all table "tr" []) cells →
       ∃ parameters : gmap string string,
         _get_parameters content_main = Ok parameters
         ∧ (∀ name,
              is_Some (parameters !! name)
              ↔ ∃ value, (name, value) ∈ cells
                         ∧ Spec.row_counts name value = true)
         ∧ (∀ before name value after,
              cells = before ++ (name, value) :: after →
              Spec.row_counts name value = true →
              (∀ value', (name, value') ∈ after →
                         Spec.row_counts name value' = false) →
              parameters !! name = Some value))
  ∧ (∀ table parameters,
       _find_tag (Some content_main) details_table_path = Some table →
       _get_parameters content_main = Ok parameters →
       ∃ cells : list (string * string),
         Forall2 (fun row cell =>
                    _find_text (Some row) property_name_path = Ok cell.1
                    ∧ _find_text (Some row) property_value_path = Ok cell.2)
                 (Bs4.find_all table "tr" []) cells
         ∧ parameters = fold_left add_row cells ∅).
Proof.
  split; [|split; [|split]]; cycle 3.
  { intros table parameters H. unfold _get_parameters. rewrite H.
    destruct (Bs4.find_all table "tr" []) as [|row rows].
    - intros [= <-]. exists []. by split.
    - apply parameters_rows_return. }
  - intros H. unfold _get_parameters. by rewrite H.
  - intros table H Hrows. unfold _get_parameters. by rewrite H, Hrows.
  - intros table cells H Hcells.
    exists (fold_left add_row cells ∅).
    split; [|split].
    + unfold _get_parameters. rewrite H.
      destruct (Bs4.find_all table "tr" []) as [|row rows] eqn:E.
      * by apply Forall2_nil_inv_l in Hcells as ->.
      * apply for_each_pure.
        eapply Forall2_impl; [exact Hcells|].
        intros row' [n v] [Hn Hv] s. by apply parameters_row_texts.
    + intros name. rewrite add_rows_is_Some. split.
      * intros [Hs|?]; [|done]. rewrite lookup_empty in Hs. by destruct Hs.
      * by right.
    + intros before name value after -> Hc Hafter.
      rewrite add_rows_app. cbn [fold_left].
      rewrite add_rows_untouched by done.
      unfold add_row at 1. cbn [fst snd]. rewrite Hc.
      apply lookup_insert_eq.
Qed.

Lemma _get_parameters_rows_witness :
  ∃ parameters : gmap string string,
    _get_parameters
      (Page.main
         [Page.details
            [Page.detail_row [NavigableString "Thread"] [NavigableString "M3"];
             Page.detail_row [NavigableString "Category"] [NavigableString "Bolts"];
             Page.detail_row [NavigableString "Thread"] [NavigableString "M4"]]])
    = Ok parameters
    ∧ parameters !! "Thread" = Some "M4"
    ∧ parameters !! "Category" = None.
Proof.
  destruct (_get_parameters_rows
    (Page.main
       [Page.details
          [Page.detail_row [NavigableString "Thread"] [NavigableString "M3"];
           Page.detail_row [NavigableString "Category"] [NavigableString "Bolts"];
           Page.detail_row [NavigableString "Thread"] [NavigableString "M4"]]]))
    as (_ & _ & H & _).
  destruct (H _ [("Thread", "M3"); ("Category", "Bolts"); ("Thread", "M4")]
              eq_refl) as (parameters & Hp & Hdom & Hlast).
  { repeat constructor. }
  exists parameters. split; [exact Hp|]. split.
  - apply (Hlast [("Thread", "M3"); ("Category", "Bolts")] _ _ []);
      [reflexivity | reflexivity |].
    intros value' Hin. by apply elem_of_nil in Hin.
  - apply eq_None_not_Some. rewrite Hdom. intros (value & Hin & Hc).
    repeat (apply elem_of_cons in Hin as [Heq|Hin]; [by simplify_eq|]).
    by apply elem_of_nil in Hin.
Defined.

(** ** Validation and assembly *)

Lemma is_product_page_text soup text :
  _find_text (Some soup) [content_main_step; StepStr "a"] = Ok text →
  is_product_page soup = Ok (String.eqb (Py.lower text) "product catalog").
Proof. intros H. unfold is_product_page. by rewrite H. Qed.

(** A page that passes the validation has a main content region. *)
Lemma is_product_page_has_main soup :
  is_product_page soup = Ok true →
  ∃ content_main, _find_tag (Some soup) [content_main_step] = Some content_main.
Proof.
  unfold is_product_page, _find_text. cbn [_find_tag].
  destruct (Bs4.is_tag soup); [|done].
  destruct (step_find soup content_main_step) as [content_main|]; [|done].
  destruct (Bs4.is_tag content_main) eqn:E; [|done].
  intros _. by exists content_main.
Qed.

Lemma _scrape_api_part_some soup part_id api_part :
  _scrape_api_part soup part_id = Ok (Some api_part) →
  description api_part ≠ EmptyString ∧ category_path api_part ≠ [].
Proof.
  unfold _scrape_api_part.
  destruct (_find_tag _ _) as [content_main|]; [|done].
  destruct (_get_description content_main) as [d|]; [|done].
  rewrite bind_Ok. destruct d as [|c d]; [done|]. cbn [Py.truthy negb].
  destruct (_get_pricing _ _) as [pb|]; [|done]. rewrite bind_Ok.
  destruct (_get_parameters _) as [ps|]; [|done]. rewrite bind_Ok.
  destruct (_get_category_path _) as [[|t path]|]; [done| |done].
  rewrite bind_Ok. intros [= <-]. done.
Qed.

Lemma _scrape_api_part_no_description soup part_id content_main :
  _find_tag (Some soup) [content_main_step] = Some content_main →
  _get_description content_main = Ok EmptyString →
  _scrape_api_part soup part_id = Ok None.
Proof.
  intros Hm Hd. unfold _scrape_api_part. by rewrite Hm, Hd.
Qed.

Lemma _scrape_api_part_no_category soup part_id content_main d pb ps :
  _find_tag (Some soup) [content_main_step] = Some content_main →
  _get_description content_main = Ok d →
  _get_pricing content_main part_id = Ok pb →
  _get_parameters content_main = Ok ps →
  _get_category_path content_main = Ok [] →
  _scrape_api_part soup part_id = Ok None.
Proof.
  intros Hm Hd Hpb Hps Hc. unfold _scrape_api_part.
  rewrite Hm, Hd, bind_Ok. destruct (negb (Py.truthy d)); [done|].
  by rewrite Hpb, bind_Ok, Hps, bind_Ok, Hc.
Qed.

(** Where the lookup of the first link text of the main content region
    returns: when that text, lower-cased, is not [product catalog], the
    validator says no and [search] returns the empty list and the count 0
    without a warning; the validator says no exactly when that text
    differs from the sentinel. *)
Lemma search_not_a_product_page scrape search_term soup text :
  fetch scrape (PRODUCT_URL search_term) 0 3 = Some soup →
  _find_text (Some soup) [content_main_step; StepStr "a"] = Ok text →
  (is_product_page soup = Ok false ↔ Py.lower text ≠ "product catalog")
  ∧ (Py.lower text ≠ "product catalog" →
     search scrape search_term = ([], Ok ([], 0))).
Proof.
  intros Hfetch Htext.
  rewrite (is_product_page_text _ _ Htext).
  destruct (String.eqb_spec (Py.lower text) "product catalog") as [E|E].
  - split; [split; [done | intros H; by destruct H] | done].
  - split; [done|]. intros _. unfold search.
    rewrite Hfetch, (is_product_page_text _ _ Htext).
    by rewrite (proj2 (String.eqb_neq _ _) E).
Qed.

Lemma search_not_a_product_page_witness :
  search (fun _ attempt =>
            match attempt with
            | 1 => Some (Tag "[document]" []
                             [Page.main [Page.link "Page not found"]])
            | _ => None
            end) "9999"
  = ([], Ok ([], 0)).
Proof.
  apply (search_not_a_product_page _ "9999"
           (Tag "[document]" [] [Page.main [Page.link "Page not found"]])
           "Page not found");
    [reflexivity | reflexivity | discriminate].
Defined.

(** Every record that [search] returns has a non-empty description and
    a non-empty category path; and on a page that passed the validation,
    when the description decodes to the empty string, or the category
    path decodes to the empty sequence after the price breaks and the
    parameters were decoded, [search] returns the empty list and the
    count 0 with a warning. *)
Lemma search_needs_description_and_category scrape search_term :
  (∀ warnings parts count,
     search scrape search_term = (warnings, Ok (parts, count)) →
     Forall (fun part => description part ≠ EmptyString
                         ∧ category_path part ≠ []) parts)
  ∧ (∀ soup content_main,
       fetch scrape (PRODUCT_URL search_term) 0 3 = Some soup →
       is_product_page soup = Ok true →
       _find_tag (Some soup) [content_main_step] = Some content_main →
       _get_description content_main = Ok EmptyString
       ∨ (∃ d pb ps,
            _get_description content_main = Ok d
            ∧ _get_pricing content_main search_term = Ok pb
            ∧ _get_parameters content_main = Ok ps
            ∧ _get_category_path content_main = Ok []) →
       search scrape search_term
       = (["failed to parse found part at BoltDepot (url "
           +:+ PRODUCT_URL search_term +:+ ")"], Ok ([], 0))).
Proof.
  split.
  - intros warnings parts count. unfold search.
    destruct (fetch _ _ _ _) as [soup|]; [|intros [= <- <- <-]; constructor].
    destruct (is_product_page soup) as [[|]|]; [| intros [= <- <- <-]; constructor | done].
    destruct (_scrape_api_part soup search_term) as [[api_part|]|] eqn:E;
      [| intros [= <- <- <-]; constructor | done].
    intros [= <- <- <-]. constructor; [|constructor].
    by apply (_scrape_api_part_some soup search_term).
  - intros soup content_main Hfetch Hvalid Hmain Hempty.
    assert (_scrape_api_part soup search_term = Ok None) as Hnone.
    { destruct Hempty as [Hd|(d & pb & ps & Hd & Hpb & Hps & Hc)].
      - by eapply _scrape_api_part_no_description.
      - by eapply _scrape_api_part_no_category. }
    unfold search. by rewrite Hfetch, Hvalid, Hnone.
Qed.

Lemma search_needs_description_and_category_witness :
  search (fun _ _ =>
            Some (Tag "[document]" []
                      [Page.main [Page.link "Product Catalog";
                                  Page.elem "h1" [] "Hex bolt";
                                  Page.breadcrumb []]])) "123"
  = (["failed to parse found part at BoltDepot (url "
      +:+ PRODUCT_URL "123" +:+ ")"], Ok ([], 0)).
Proof.
  apply (proj2 (search_needs_description_and_category _ "123")
           (Tag "[document]" []
                [Page.main [Page.link "Product Catalog";
                            Page.elem "h1" [] "Hex bolt";
                            Page.breadcrumb []]])
           (Page.main [Page.link "Product Catalog";
                       Page.elem "h1" [] "Hex bolt";
                       Page.breadcrumb []]));
    [reflexivity | reflexivity | reflexivity |].
  right. exists "Hex bolt", ∅, ∅. repeat split; reflexivity.
Defined.

(** ** Numerals *)

Ltac char_cases c :=
  destruct c as [[] [] [] [] [] [] [] []]; vm_compute; intuition congruence.




Lemma forall_chars_impl (test test' : ascii → bool) s :
  (∀ c, test c = true → test' c = true) →
  Py.forall_chars test s = true → Py.forall_chars test' s = true.
Proof.
  intros H. induction s as [|c s IH]; [done|]. cbn [Py.forall_chars].
  rewrite !andb_true_iff. intros [Hc Hs]. auto.
Qed.

Lemma digit_plain c : Py.isdigit c = true → Num.plain c = true.
Proof. char_cases c. Qed.

Lemma digit_not_space c : Py.isdigit c = true → Num.num_space c = false.
Proof. char_cases c. Qed.

Lemma digit_not_comma c : Py.isdigit c = true → Ascii.eqb c ","%char = false.
Proof. char_cases c. Qed.

Lemma plain_not_space c : Num.plain c = true → Num.num_space c = false.
Proof. char_cases c. Qed.

Lemma plain_not_underscore c :
  Num.plain c = true → Ascii.eqb c "_"%char = false.
Proof. char_cases c. Qed.

Lemma split_sign_digit c s :
  Py.isdigit c = true → Num.split_sign (String c s) = (false, String c s).
Proof. char_cases c. Qed.

Lemma lstrip_plain c s :
  Num.plain c = true → Num.lstrip (String c s) = String c s.
Proof.
  intros H. cbn [Num.lstrip]. by rewrite (plain_not_space _ H).
Qed.

Lemma rstrip_plain s :
  Py.forall_chars Num.plain s = true → Num.rstrip s = s.
Proof.
  induction s as [|c s IH]; [done|]. cbn [Py.forall_chars Num.rstrip].
  rewrite andb_true_iff. intros [Hc Hs]. rewrite (IH Hs).
  destruct s; [|done]. by rewrite (plain_not_space _ Hc).
Qed.

Lemma drop_underscores_plain prev s :
  Num.is_underscore prev = false →
  Py.forall_chars Num.plain s = true →
  Num.drop_underscores prev s = Some s.
Proof.
  revert prev. induction s as [|c s IH]; intros prev Hprev.
  - intros _. cbn [Num.drop_underscores]. by rewrite Hprev.
  - cbn [Py.forall_chars Num.drop_underscores].
    rewrite andb_true_iff. intros [Hc Hs].
    rewrite (plain_not_underscore _ Hc), Hprev. cbn [andb].
    rewrite IH; [done | | done]. cbn [Num.is_underscore].
    by apply plain_not_underscore.
Qed.



(** [int] reads a non-empty string of at most 4300 digits as the number
    it writes, and refuses a longer one. *)
Lemma py_int_all_digits ds :
  Num.all_digits ds = true → Py.truthy ds = true →
  Num.py_int ds
  = if (Z.of_nat (String.length ds) <=? Num.max_str_digits)%Z
    then Ok (Num.digits_value 0 ds) else Raise ValueError.
Proof.
  intros Hd Hne. unfold Num.py_int.
  assert (Py.forall_chars Num.plain ds = true) as Hplain
    by (eapply forall_chars_impl; [apply digit_plain | exact Hd]).
  destruct ds as [|c ds]; [done|].
  assert (Py.isdigit c = true) as Hc.
  { unfold Num.all_digits in Hd. cbn [Py.forall_chars] in Hd.
    by apply andb_true_iff in Hd as [? _]. }
  rewrite (lstrip_plain _ _ (digit_plain _ Hc)), (rstrip_plain _ Hplain).
  rewrite (drop_underscores_plain None _ eq_refl Hplain).
  rewrite (split_sign_digit _ _ Hc). cbn [Py.truthy andb]. by rewrite Hd.
Qed.

Lemma py_int_digits ds :
  Num.all_digits ds = true → Py.truthy ds = true →
  (Z.of_nat (String.length ds) ≤ Num.max_str_digits)%Z →
  Num.py_int ds = Ok (Num.digits_value 0 ds).
Proof.
  intros Hd Hne Hlen. rewrite (py_int_all_digits _ Hd Hne).
  by rewrite (proj2 (Z.leb_le _ _) Hlen).
Qed.

Lemma py_int_too_long ds :
  Num.all_digits ds = true → Py.truthy ds = true →
  (Num.max_str_digits < Z.of_nat (String.length ds))%Z →
  Num.py_int ds = Raise ValueError.
Proof.
  intros Hd Hne Hlen. rewrite (py_int_all_digits _ Hd Hne).
  by rewrite (proj2 (Z.leb_gt _ _) Hlen).
Qed.








(** ** Floats

    The conversion of an [int] to a [float], and the rounding to 3
    decimal places, from the definitions of IEEE 754 rounding. *)

Section Floats.

#[local] Open Scope Z_scope.















(** The rounding to 3 decimal places has one result. *)
Lemma nearest_thousandth_unique m e k k' :
  Spec.nearest_thousandth m e k → Spec.nearest_thousandth m e k' → k = k'.
Proof.
  unfold Spec.nearest_thousandth. cbv zeta.
  set (num := 1000 * Zpos m * 2 ^ Z.max e 0).
  set (den := 2 ^ Z.max (- e) 0).
  assert (0 < den) as Hden by (apply Z.pow_pos_nonneg; lia).
  intros (_ & Hk & Ek) (_ & Hk' & Ek').
  assert (k = k' ∨ k = k' + 1 ∨ k' = k + 1) as [?|[->| ->]] by nia; [done| |].
  - assert (2 * Z.abs (num - (k' + 1) * den) = den) as H1 by nia.
    assert (2 * Z.abs (num - k' * den) = den) as H2 by nia.
    specialize (Ek H1). specialize (Ek' H2).
    rewrite Z.even_add, Ek' in Ek. done.
  - assert (2 * Z.abs (num - (k + 1) * den) = den) as H1 by nia.
    assert (2 * Z.abs (num - k * den) = den) as H2 by nia.
    specialize (Ek H2). specialize (Ek' H1).
    rewrite Z.even_add, Ek in Ek'. done.
Qed.

Lemma rounded_to_3_places_unique x y y' :
  Spec.rounded_to_3_places x y → Spec.rounded_to_3_places x y' → y = y'.
Proof.
  destruct x as [s|s| |s m e]; cbn [Spec.rounded_to_3_places]; try congruence.
  intros (k & Hk & ->) (k' & Hk' & ->).
  by rewrite (nearest_thousandth_unique _ _ _ _ Hk Hk').
Qed.

End Floats.

(** ** The price breaks *)



Lemma float_0_23_nearest : Spec.nearest_float 23 100 Spec.float_0_23.
Proof. split; [reflexivity | vm_compute; congruence]. Qed.

Lemma adjusted_quantity_of_truthy label lot :
  adjusted_quantity_of label = Ok lot → Py.truthy label = true.
Proof. by destruct label. Qed.

(** A cell whose two labels decode and whose division is defined sets one
    entry of the mapping. *)
Lemma pricing_cell_priced price_breaks cell c rest qty lot price unit_price :
  _find_text (Some cell) price_break_path = Ok (String c rest) →
  _find_text (Some cell) per_qty_path = Ok qty →
  adjusted_quantity_of qty = Ok lot →
  Num.py_float rest = Ok price →
  Num.truediv price lot = Ok unit_price →
  pricing_cell price_breaks cell
  = Ok (<[lot := Num.round3 unit_price]> price_breaks).
Proof.
  intros Hp Hq Hlot Hprice Hdiv. unfold pricing_cell.
  rewrite Hp, Hq, !bind_Ok, (adjusted_quantity_of_truthy _ _ Hlot).
  cbn [Py.truthy negb orb Py.slice_from].
  rewrite Hlot. cbn [except_ValueError]. rewrite bind_Ok, Hprice.
  cbn [except_ValueError]. by rewrite bind_Ok, Hdiv.
Qed.


(** A cell with an empty label leaves the mapping as it is. *)
Lemma pricing_cell_empty_label price_breaks cell price_break qty :
  _find_text (Some cell) price_break_path = Ok price_break →
  _find_text (Some cell) per_qty_path = Ok qty →
  price_break = EmptyString ∨ qty = EmptyString →
  pricing_cell price_breaks cell = Ok price_breaks.
Proof.
  intros Hp Hq H. unfold pricing_cell. rewrite Hp, Hq, !bind_Ok.
  destruct H as [-> | ->]; [done|]. by destruct price_break.
Qed.

Lemma _get_pricing_cells content_main part_id table row :
  _find_tag (Some content_main) pricing_table_path = Some table →
  _find_tag (Some table) (pricing_row_path part_id) = Some row →
  _get_pricing content_main part_id
  = for_each pricing_cell (Bs4.find_all row "td" []) ∅.
Proof.
  intros Ht Hr. unfold _get_pricing. rewrite Ht, Hr.
  by destruct (Bs4.find_all row "td" []).
Qed.







(** C7: a decode anomaly of one cell can leave [_get_pricing] as an
    exception.  A quantity label [/ 0] passes [int], and the division by
    the lot size 0 raises [ZeroDivisionError], which the handlers for
    [ValueError] do not catch: the whole decoder raises, whatever the
    cells before and after hold. *)
Theorem _get_pricing_zero_lot_raises
        content_main part_id table row before cell after
        c rest price price_breaks :
  _find_tag (Some content_main) pricing_table_path = Some table →
  _find_tag (Some table) (pricing_row_path part_id) = Some row →
  Bs4.find_all row "td" [] = before ++ cell :: after →
  for_each pricing_cell before ∅ = Ok price_breaks →
  _find_text (Some cell) price_break_path = Ok (String c rest) →
  _find_text (Some cell) per_qty_path = Ok "/ 0" →
  Num.py_float rest = Ok price →
  _get_pricing content_main part_id = Raise ZeroDivisionError.
Proof.
  intros Ht Hr Hcells Hbefore Hp Hq Hprice.
  rewrite (_get_pricing_cells _ _ _ _ Ht Hr), Hcells, for_each_app, Hbefore.
  rewrite bind_Ok. cbn [for_each]. unfold pricing_cell.
  rewrite Hp, Hq, !bind_Ok. cbn [Py.truthy negb orb Py.slice_from].
  change (adjusted_quantity_of "/ 0") with (Ok 0%Z : result Z).
  cbn [except_ValueError]. rewrite bind_Ok, Hprice. cbn [except_ValueError].
  rewrite bind_Ok.
  change (Num.truediv price 0) with (Raise ZeroDivisionError : result spec_float).
  done.
Qed.

Lemma _get_pricing_zero_lot_raises_witness :
  _get_pricing
    (Page.main
       [Page.pricing "123"
          [Page.price_cell "$1.23" "/ ea";
           Page.price_cell "$5.00" "/ 0";
           Page.price_cell "$12.00" "/ 1,000"]]) "123"
  = Raise ZeroDivisionError.
Proof.
  apply (_get_pricing_zero_lot_raises _ "123"
           (Page.pricing "123"
              [Page.price_cell "$1.23" "/ ea";
               Page.price_cell "$5.00" "/ 0";
               Page.price_cell "$12.00" "/ 1,000"])
           (Tag "tr" (Page.id "p123")
              [Page.price_cell "$1.23" "/ ea";
               Page.price_cell "$5.00" "/ 0";
               Page.price_cell "$12.00" "/ 1,000"])
           [Page.price_cell "$1.23" "/ ea"]
           (Page.price_cell "$5.00" "/ 0")
           [Page.price_cell "$12.00" "/ 1,000"]
           "$"%char "5.00" (S754_finite false 5629499534213120 (-50))
           {[1%Z := Spec.float_1_23]});
    reflexivity.
Defined.

(** C10: the price label loses its first character, whatever it is, and
    the rest is read as a float; the label [1.23] without a currency
    symbol, with [/ ea], is read as [.23] and gives the entry 1 -> 0.23
    instead of being skipped. *)
Theorem pricing_cell_drops_first_character :
  (∀ price_breaks cell c rest qty lot price unit_price,
     _find_text (Some cell) price_break_path = Ok (String c rest) →
     _find_text (Some cell) per_qty_path = Ok qty →
     adjusted_quantity_of qty = Ok lot →
     Num.py_float rest = Ok price →
     Num.truediv price lot = Ok unit_price →
     pricing_cell price_breaks cell
     = Ok (<[lot := Num.round3 unit_price]> price_breaks))
  ∧ _get_pricing
      (Page.main [Page.pricing "123" [Page.price_cell "1.23" "/ ea"]]) "123"
    = Ok {[1%Z := Spec.float_0_23]}
  ∧ Spec.nearest_float 23 100 Spec.float_0_23.
Proof.
  split; [|split].
  - intros. by eapply pricing_cell_priced.
  - reflexivity.
  - apply float_0_23_nearest.
Qed.

Lemma pricing_cell_drops_first_character_witness :
  pricing_cell ∅ (Page.price_cell "1.23" "/ ea")
  = Ok (<[1%Z := Num.round3 Spec.float_0_23]> ∅).
Proof.
  apply (proj1 pricing_cell_drops_first_character ∅ _
           "1"%char ".23" "/ ea" 1%Z Spec.float_0_23);
    reflexivity.
Defined.

(** ** Evaluations *)

Example py_float_without_leading_digit :
  Num.py_float ".23" = Ok Spec.float_0_23.
Proof. reflexivity. Qed.

Example py_float_rejects_separator :
  Num.py_float "1,234.56" = Raise ValueError.
Proof. reflexivity. Qed.

Example py_int_rejects_separator : Num.py_int "1,000" = Raise ValueError.
Proof. reflexivity. Qed.

Example py_int_zero : adjusted_quantity_of "/ 0" = Ok 0%Z.
Proof. reflexivity. Qed.

Example round3_ties_on_the_binary_value :
  (x ← Num.py_float "2.675"; mret (Num.round3 x)) = Num.py_float "2.675"
  ∧ (x ← Num.py_float "0.0005"; mret (Num.round3 x)) = Num.py_float "0.001".
Proof. split; vm_compute; reflexivity. Qed.

(** The rounding shows where the quotient has more than 3 decimal
    places: [$1.00] for 3 gives 0.333. *)
Example third_of_a_dollar :
  _get_pricing
    (Page.main [Page.pricing "123" [Page.price_cell "$1.00" "/ 3"]]) "123"
  = Ok {[3%Z := Spec.float_0_333]}
  ∧ Spec.nearest_float 333 1000 Spec.float_0_333.
Proof. split; [vm_compute; reflexivity|]. split; [reflexivity | vm_compute; congruence]. Qed.

(** The largest [int] that converts to a [float], and the one after it. *)
Example float_of_int_range :
  Num.float_of_int (2 ^ 1024 - 2 ^ 970 - 1)
  = Ok (S754_finite false (2 ^ 53 - 1) 971)
  ∧ Num.float_of_int (2 ^ 1024 - 2 ^ 970) = Raise OverflowError.
Proof. split; vm_compute; reflexivity. Qed.

(** [int] reads a numeral of 4300 digits and refuses one of 4301. *)
Example py_int_digit_limit :
  Num.py_int (string_of_list_ascii (repeat "0"%char 4299) +:+ "7") = Ok 7%Z
  ∧ Num.py_int (string_of_list_ascii (repeat "0"%char 4300) +:+ "7")
    = Raise ValueError
  ∧ adjusted_quantity_of Page.long_label = Raise ValueError.
Proof. repeat split; vm_compute; reflexivity. Qed.

(** The lot size 0 does not always raise: the cell is passed over when
    its price label is one that [float] rejects. *)
Example unread_price_for_zero_lot_skipped :
  _get_pricing
    (Page.main [Page.pricing "123" [Page.price_cell "$call" "/ 0"]]) "123"
  = Ok ∅.
Proof. vm_compute. reflexivity. Qed.

(** A cell whose price label [float] rejects is passed over, and the cells
    around it are decoded. *)
Example malformed_price_cell_skipped :
  _get_pricing
    (Page.main
       [Page.pricing "123"
          [Page.price_cell "$1.23" "/ ea";
           Page.price_cell "$call" "/ 50";
           Page.price_cell "$12.00" "/ 1,000"]]) "123"
  = Ok (<[1000%Z := Spec.float_0_012]> {[1%Z := Spec.float_1_23]}).
Proof. vm_compute. reflexivity. Qed.

(** A price cell whose span is empty stops the decoder: [_find_text]
    raises on it. *)
Example empty_price_span_raises :
  _get_pricing
    (Page.main
       [Page.pricing "123"
          [Page.price_cell "$1.23" "/ ea";
           Tag "td" [] [Tag "span" (Page.class "price-break") [];
                        Page.elem "span" (Page.class "perQty") "/ 10"]]])
    "123"
  = Raise IndexError.
Proof. reflexivity. Qed.

(** A breadcrumb that is left empty by the first check fails at the
    second one. *)
Example lone_size_breadcrumb_raises :
  _get_category_path
    (Page.main [Page.breadcrumb ["Product Catalog"; "3mm x 0.5mm"]])
  = Raise IndexError.
Proof. reflexivity. Qed.

(** A complete page gives one record. *)
Example search_finds_part :
  ∃ api_part,
    search (fun _ _ =>
              Some (Tag "[document]" []
                      [Page.main
                         [Page.breadcrumb ["Product Catalog"; "Bolts"; "#4"];
                          Page.elem "h1" [] "  Hex   bolt ";
                          Page.pricing "123" [Page.price_cell "$1.23" "/ ea"]]]))
           "123"
    = ([], Ok ([api_part], 1))
    ∧ description api_part = "Hex bolt"
    ∧ category_path api_part = ["Bolts"]
    ∧ price_breaks api_part = {[1%Z := Spec.float_1_23]}
    ∧ supplier_link api_part
      = "https://boltdepot.com/Product-Details?product=123"
    ∧ barcode api_part
      = "http://boltdepot.com/Product-Details.aspx?product=123".
Proof. eexists. split; [vm_compute; reflexivity|]. repeat split. Qed.

(** ** More on the navigation *)

Lemma _find_tag_absent args : _find_tag None args = None.
Proof. by destruct args. Qed.

Lemma _find_tag_not_a_tag start args :
  Bs4.is_tag start = false → _find_tag (Some start) args = None.
Proof. intros H. destruct args; cbn [_find_tag]; by rewrite H. Qed.

Lemma _find_tag_app tag args1 args2 :
  _find_tag tag (args1 ++ args2) = _find_tag (_find_tag tag args1) args2.
Proof.
  revert tag. induction args1 as [|arg args1 IH]; intros tag.
  - cbn [app]. destruct tag as [start|]; cbn [_find_tag].
    + destruct (Bs4.is_tag start) eqn:E; [done|].
      rewrite _find_tag_absent. by apply _find_tag_not_a_tag.
    + by rewrite !_find_tag_absent.
  - cbn [app _find_tag]. destruct tag as [start|].
    + destruct (Bs4.is_tag start); [|by rewrite _find_tag_absent].
      destruct (step_find start arg); [apply IH|by rewrite _find_tag_absent].
    + by rewrite _find_tag_absent.
Qed.

Lemma step_find_matches start arg found :
  step_find start arg = Some found →
  In found (Bs4.descendants start)
  ∧ Bs4.matches (step_name arg) (step_filters arg) found = true.
Proof.
  intros H. apply (List.find_some (Bs4.matches (step_name arg) (step_filters arg))).
  by destruct arg.
Qed.

Lemma descendants_below inner outer :
  In inner (Bs4.descendants outer) →
  ∀ n, In n (Bs4.descendants inner) → In n (Bs4.descendants outer).
Proof.
  revert outer. apply (node_induction
    (fun outer => In inner (Bs4.descendants outer) →
                  ∀ n, In n (Bs4.descendants inner) →
                       In n (Bs4.descendants outer))); [|done|done].
  intros name attrs contents IH Hin n Hn. cbn [Bs4.descendants] in Hin |- *.
  apply in_flat_map in Hin as (c & Hc & Hin). apply in_flat_map.
  exists c. split; [done|]. destruct Hin as [->|Hin].
  - by right.
  - right. eapply (proj1 (List.Forall_forall _ _) IH); eauto.
Qed.

Lemma within_trans a b c : within a b → within b c → within a c.
Proof.
  intros [->|Hab] [->|Hbc]; [by left | by right | by right |].
  right. by eapply descendants_below.
Qed.

Lemma _find_tag_within start args found :
  _find_tag (Some start) args = Some found → within found start.
Proof.
  revert start. induction args as [|arg args IH]; intros start;
    cbn [_find_tag]; destruct (Bs4.is_tag start); try done.
  - intros [= <-]. by left.
  - destruct (step_find start arg) as [next|] eqn:E; [|done].
    intros H. eapply within_trans; [by apply IH|].
    right. by apply (step_find_matches _ _ _ E).
Qed.

(** X1: a chain of lookups composes: looking up the steps [args1 ++ args2]
    is looking up [args2] from what [args1] gives; an absent start, or a
    miss at any step, voids the rest of the chain. *)
Theorem _find_tag_composes tag args1 args2 :
  _find_tag tag (args1 ++ args2) = _find_tag (_find_tag tag args1) args2
  ∧ (_find_tag tag args1 = None → _find_tag tag (args1 ++ args2) = None).
Proof.
  split; [apply _find_tag_app|].
  intros H. by rewrite _find_tag_app, H, _find_tag_absent.
Qed.

Lemma _find_tag_snoc_matches start args arg found :
  _find_tag (Some start) (args ++ [arg]) = Some found →
  In found (Bs4.descendants start)
  ∧ Bs4.matches (step_name arg) (step_filters arg) found = true.
Proof.
  rewrite _find_tag_app.
  destruct (_find_tag (Some start) args) as [mid|] eqn:Hmid; [|done].
  cbn [_find_tag]. destruct (Bs4.is_tag mid); [|done].
  destruct (step_find mid arg) as [next|] eqn:E; [|done].
  destruct (Bs4.is_tag next); [|done]. intros [= ->].
  destruct (step_find_matches _ _ _ E) as [Hin Hm]. split; [|done].
  destruct (_find_tag_within _ _ _ Hmid) as [->|Hbelow]; [done|].
  by eapply descendants_below.
Qed.

(** X2: what a non-empty chain of lookups finds lies strictly below the
    start, and it is a tag with the name and the attributes that the last
    step asks for. *)
Theorem _find_tag_finds_below start args arg found :
  _find_tag (Some start) (args ++ [arg]) = Some found →
  In found (Bs4.descendants start)
  ∧ Bs4.matches (step_name arg) (step_filters arg) found = true.
Proof. apply _find_tag_snoc_matches. Qed.

Lemma _find_tag_finds_below_witness :
  In (Tag "img" [("src", AttrStr "/images/bolt.png")] [])
     (Bs4.descendants
        (Page.main [Tag "div" (Page.class "row")
                        [Tag "img" [("src", AttrStr "/images/bolt.png")] []]]))
  ∧ Bs4.matches "img" []
      (Tag "img" [("src", AttrStr "/images/bolt.png")] []) = true.
Proof.
  apply (_find_tag_finds_below _
           [StepTuple "div" (Some [("class", "row")])] (StepStr "img")).
  reflexivity.
Defined.

Lemma _find_tag_composes_witness :
  _find_tag (Some (Page.main [Page.elem "h1" [] "Hex bolt"]))
            ([StepStr "nav"] ++ [StepStr "a"])
  = None.
Proof.
  apply (proj2 (_find_tag_composes _ [StepStr "nav"] [StepStr "a"])).
  reflexivity.
Defined.

(** ** More on the cleaning of a text *)

Lemma sub_spaces_all_space in_run s :
  Py.forall_chars Py.isspace (Py.sub_spaces in_run s)
  = Py.forall_chars Py.isspace s.
Proof.
  revert in_run. induction s as [|c s IH]; intros in_run; [done|].
  cbn [Py.sub_spaces Py.forall_chars]. destruct (Py.isspace c) eqn:E.
  - destruct in_run; [apply IH|]. cbn [Py.forall_chars].
    change (Py.isspace " "%char) with true. apply IH.
  - cbn [Py.forall_chars]. by rewrite E.
Qed.

Lemma lstrip_head s :
  match Py.lstrip s with
  | String c _ => Py.isspace c = false
  | EmptyString => True
  end.
Proof.
  induction s as [|c s IH]; [done|]. cbn [Py.lstrip].
  by destruct (Py.isspace c) eqn:E.
Qed.

Lemma lstrip_empty_iff s :
  Py.lstrip s = EmptyString ↔ Py.forall_chars Py.isspace s = true.
Proof.
  induction s as [|c s IH]; [done|]. cbn [Py.lstrip Py.forall_chars].
  destruct (Py.isspace c); [exact IH | done].
Qed.

Lemma rstrip_empty_iff s :
  Py.rstrip s = EmptyString ↔ Py.forall_chars Py.isspace s = true.
Proof.
  induction s as [|c s IH]; [done|]. cbn [Py.rstrip Py.forall_chars].
  destruct (Py.rstrip s) as [|d r].
  - destruct (Py.isspace c); [|done]. cbn [andb]. rewrite <- IH. done.
  - split; [done|]. rewrite andb_true_iff. intros [_ H].
    by apply IH in H.
Qed.

(** A text cleans to the empty string exactly when it is all whitespace. *)
Lemma clean_text_empty_iff s :
  clean_text s = EmptyString ↔ Py.forall_chars Py.isspace s = true.
Proof.
  unfold clean_text, Py.strip.
  rewrite rstrip_empty_iff, <- (sub_spaces_all_space false s).
  generalize (Py.sub_spaces false s). intros u. split.
  - intros H. apply lstrip_empty_iff. pose proof (lstrip_head u) as Hh.
    destruct (Py.lstrip u) as [|c r]; [done|].
    cbn [Py.forall_chars] in H. by rewrite Hh in H.
  - intros H. by apply lstrip_empty_iff in H as ->.
Qed.

Lemma collapsed_after_single after_space s :
  Spec.collapsed_after after_space s = true →
  Spec.single_spaces after_space s = true.
Proof.
  revert after_space. induction s as [|c s IH]; intros after_space; [done|].
  cbn [Spec.collapsed_after Spec.single_spaces].
  destruct (Py.isspace c); [|apply IH].
  rewrite !andb_true_iff. intros [H Hs]. split; [done|]. by apply IH.
Qed.

Lemma sub_spaces_fixed in_run s :
  Spec.single_spaces in_run s = true → Py.sub_spaces in_run s = s.
Proof.
  revert in_run. induction s as [|c s IH]; intros in_run; [done|].
  cbn [Spec.single_spaces Py.sub_spaces]. destruct (Py.isspace c).
  - rewrite !andb_true_iff. intros [[Hc Hb] Hs].
    apply Ascii.eqb_eq in Hc as ->. destruct in_run; [done|].
    by rewrite (IH _ Hs).
  - intros Hs. by rewrite (IH _ Hs).
Qed.

Lemma rstrip_fixed after_space s :
  Spec.collapsed_after after_space s = true → Py.rstrip s = s.
Proof.
  revert after_space. induction s as [|c s IH]; intros after_space; [done|].
  cbn [Spec.collapsed_after Py.rstrip]. destruct (Py.isspace c).
  - rewrite !andb_true_iff. intros [_ Hs]. rewrite (IH _ Hs).
    by destruct s.
  - intros Hs. rewrite (IH _ Hs). by destruct s.
Qed.

Lemma single_spaces_weaken after_space s :
  Spec.single_spaces after_space s = true →
  Spec.single_spaces false s = true.
Proof.
  destruct s as [|c s]; [done|]. cbn [Spec.single_spaces].
  destruct (Py.isspace c); [|done]. rewrite !andb_true_iff.
  by intros [[-> _] ->].
Qed.

(** A text that is collapsed already is left as it is. *)
Lemma clean_text_fixed s : Spec.collapsed s = true → clean_text s = s.
Proof.
  destruct s as [|c s]; [done|]. unfold Spec.collapsed. intros H.
  unfold clean_text, Py.strip.
  rewrite (sub_spaces_fixed _ _
             (single_spaces_weaken _ _ (collapsed_after_single _ _ H))).
  assert (Py.lstrip (String c s) = String c s) as ->.
  { cbn [Py.lstrip]. cbn [Spec.collapsed_after] in H.
    destruct (Py.isspace c); [|done]. by rewrite andb_false_r in H. }
  by apply (rstrip_fixed true).
Qed.

(** X3: when [_find_text] returns, it returns the empty string exactly
    when the path does not resolve, or the first child of the tag found
    holds nothing but whitespace. *)
Theorem _find_text_empty_iff tag args :
  _find_text tag args = Ok EmptyString
  ↔ _find_tag tag args = None
    ∨ ∃ found first rest,
        _find_tag tag args = Some found
        ∧ Bs4.contents found = first :: rest
        ∧ Py.forall_chars Py.isspace (Bs4.get_text first) = true.
Proof.
  unfold _find_text. destruct (_find_tag tag args) as [found|].
  - destruct (Bs4.contents found) as [|first rest] eqn:E; cbn [index0].
    + rewrite bind_Raise. split; [done|].
      intros [?|(f & x & r & Hf & Hc & _)]; [done|].
      simplify_eq. by rewrite E in Hc.
    + rewrite bind_Ok. split.
      * intros [= H]. right. exists found, first, rest.
        by rewrite <- clean_text_empty_iff.
      * intros [?|(f & x & r & Hf & Hc & Hs)]; [done|].
        simplify_eq. rewrite E in Hc. simplify_eq.
        by apply clean_text_empty_iff in Hs as ->.
  - split; [by left | done].
Qed.

Lemma _find_text_empty_iff_witness :
  _find_text (Some (Page.detail_row [NavigableString "Thread"]
                                    [NavigableString "   "]))
             property_value_path
  = Ok EmptyString.
Proof.
  apply (proj2 (_find_text_empty_iff _ _)). right.
  exists (Tag "td" (Page.class "property-value") [NavigableString "   "]),
         (NavigableString "   "), [].
  repeat split; reflexivity.
Defined.

(** X4: a text that [_find_text] returns is clean: it does not start or
    end with whitespace, its only whitespace is single spaces, and
    cleaning it again gives the same text. *)
Theorem _find_text_clean tag args text :
  _find_text tag args = Ok text →
  Spec.collapsed text = true ∧ clean_text text = text.
Proof.
  intros H. pose proof (_find_text_collapsed _ _ _ H) as Hc.
  split; [done | by apply clean_text_fixed].
Qed.

Lemma _find_text_clean_witness :
  Spec.collapsed "Hex bolt, zinc" = true
  ∧ clean_text "Hex bolt, zinc" = "Hex bolt, zinc".
Proof.
  apply (_find_text_clean
           (Some (Page.main [Page.elem "h1" [] "  Hex   bolt,
             zinc "]))
           [StepStr "h1"]).
  reflexivity.
Defined.

(** ** More on the category path *)

Lemma drop_last_if_snoc test path text :
  Spec.drop_last_if test (path ++ [text])
  = if test text then path else path ++ [text].
Proof.
  unfold Spec.drop_last_if. rewrite last_snoc.
  destruct (test text); [apply removelast_last | done].
Qed.

Lemma drop_last_if_prefix test path :
  Spec.drop_last_if test path `prefix_of` path
  ∧ length path ≤ length (Spec.drop_last_if test path) + 1.
Proof.
  destruct path as [|text path _] using rev_ind.
  - split; [done | cbn; lia].
  - rewrite drop_last_if_snoc. destruct (test text).
    + split; [by eexists | rewrite length_app; cbn; lia].
    + split; [done | lia].
Qed.

(** X5: [_get_category_path] raises exactly when the breadcrumb has links
    and, with the catalog root left out, either nothing remains, or one
    text remains and it looks like a size; what it raises is
    [IndexError]. *)
Theorem _get_category_path_raises_iff content_main nav e :
  _find_tag (Some content_main) [StepStr "nav"] = Some nav →
  _get_category_path content_main = Raise e
  ↔ e = IndexError
    ∧ Bs4.find_all nav "a" [] ≠ []
    ∧ (Spec.without_root (Bs4.get_text <$> Bs4.find_all nav "a" []) = []
       ∨ ∃ text,
           Spec.without_root (Bs4.get_text <$> Bs4.find_all nav "a" [])
           = [text]
           ∧ Spec.looks_like_size text = true).
Proof.
  intros Hnav.
  destruct (Bs4.find_all nav "a" []) as [|tag tags] eqn:E.
  - rewrite (_get_category_path_no_links _ _ Hnav E).
    split; [done | by intros (_ & ? & _)].
  - rewrite (_get_category_path_links _ _ _ _ Hnav E). cbv zeta.
    generalize (Spec.without_root (Bs4.get_text <$> tag :: tags)).
    intros kept. destruct kept as [|t1 kept _] using rev_ind.
    { cbn [index_last last]. rewrite bind_Raise. split.
      - intros [= <-]. split; [done|]. split; [done | by left].
      - by intros [-> _]. }
    rewrite index_last_snoc, bind_Ok.
    destruct (Spec.looks_like_size t1) eqn:Hsize.
    + rewrite removelast_last.
      destruct kept as [|t2 kept _] using rev_ind.
      * cbn [index_last last]. rewrite bind_Raise. split.
        -- intros [= <-]. split; [done|]. split; [done|].
           right. by exists t1.
        -- by intros [-> _].
      * rewrite index_last_snoc, bind_Ok. split; [done|].
        intros (_ & _ & [H|(t & H & _)]).
        -- by apply app_eq_nil in H as [_ ?].
        -- apply (f_equal length) in H. rewrite !length_app in H.
           cbn in H. lia.
    + rewrite index_last_snoc, bind_Ok. split; [done|].
      intros (_ & _ & [H|(t & H & Ht)]).
      * by apply app_eq_nil in H as [_ ?].
      * destruct kept as [|k kept]; [|by destruct kept].
        cbn [app] in H. injection H as ->. congruence.
Qed.

Lemma _get_category_path_raises_iff_witness :
  _get_category_path
    (Page.main [Page.breadcrumb ["Product Catalog"; "1/4 inch"]])
  = Raise IndexError.
Proof.
  apply (_get_category_path_raises_iff
           (Page.main [Page.breadcrumb ["Product Catalog"; "1/4 inch"]])
           (Page.breadcrumb ["Product Catalog"; "1/4 inch"]) IndexError
           eq_refl).
  split; [reflexivity|]. split; [discriminate|].
  right. exists "1/4 inch". split; reflexivity.
Defined.

(** X6: a path that [_get_category_path] returns is the start of the
    link texts, in their order and without those that read as the catalog
    root, short of at most two texts at the end; the catalog root is not
    in it. *)
Theorem _get_category_path_prefix content_main nav path :
  _find_tag (Some content_main) [StepStr "nav"] = Some nav →
  _get_category_path content_main = Ok path →
  path `prefix_of`
    filter (fun text => Py.lower text ≠ "product catalog")
           (Bs4.get_text <$> Bs4.find_all nav "a" [])
  ∧ length (filter (fun text => Py.lower text ≠ "product catalog")
                   (Bs4.get_text <$> Bs4.find_all nav "a" []))
    ≤ length path + 2
  ∧ Forall (fun text => Py.lower text ≠ "product catalog") path.
Proof.
  intros Hnav Hpath.
  rewrite (_get_category_path_returns _ _ _ Hnav Hpath).
  unfold Spec.category_path, Spec.without_root, Spec.catalog_root.
  set (kept := filter _ _).
  destruct (drop_last_if_prefix Spec.looks_like_size kept) as [Hp1 Hl1].
  destruct (drop_last_if_prefix Spec.has_size_prefix
              (Spec.drop_last_if Spec.looks_like_size kept)) as [Hp2 Hl2].
  assert (Spec.drop_last_if Spec.has_size_prefix
            (Spec.drop_last_if Spec.looks_like_size kept)
          `prefix_of` kept) as Hp by (by etrans).
  split; [done|]. split; [lia|].
  destruct Hp as [rest Hrest].
  assert (Forall (fun text => Py.lower text ≠ "product catalog") kept) as Hall.
  { apply Forall_forall. intros text Hin.
    by apply list_elem_of_filter in Hin as [? _]. }
  rewrite Hrest in Hall. by apply Forall_app in Hall as [? _].
Qed.

Lemma _get_category_path_prefix_witness :
  ["Nuts"] `prefix_of`
    filter (fun text => Py.lower text ≠ "product catalog")
           (Bs4.get_text <$>
              Bs4.find_all
                (Page.breadcrumb
                   ["Product Catalog"; "Nuts"; "Size: M4"; "#4 thread"])
                "a" [])
  ∧ length (filter (fun text => Py.lower text ≠ "product catalog")
              (Bs4.get_text <$>
                 Bs4.find_all
                   (Page.breadcrumb
                      ["Product Catalog"; "Nuts"; "Size: M4"; "#4 thread"])
                   "a" []))
    ≤ length ["Nuts"] + 2
  ∧ Forall (fun text => Py.lower text ≠ "product catalog") ["Nuts"].
Proof.
  apply (_get_category_path_prefix
           (Page.main [Page.breadcrumb
                         ["Product Catalog"; "Nuts"; "Size: M4"; "#4 thread"]]));
    reflexivity.
Defined.

(** ** More on the parameters *)

Lemma _find_text_raises_iff tag args e :
  _find_text (Some tag) args = Raise e
  ↔ e = IndexError ∧ empty_tag_at tag args.
Proof.
  unfold _find_text, empty_tag_at.
  destruct (_find_tag (Some tag) args) as [found|].
  - destruct (Bs4.contents found) as [|first rest] eqn:E; cbn [index0].
    + rewrite bind_Raise. split.
      * intros [= <-]. split; [done|]. by exists found.
      * by intros [-> _].
    + rewrite bind_Ok. split; [done|].
      intros (_ & f & Hf & Hc). simplify_eq. by rewrite E in Hc.
  - split; [done|]. by intros (_ & f & Hf & _).
Qed.

Lemma parameters_row_raises_iff parameters row e :
  parameters_row parameters row = Raise e
  ↔ e = IndexError
    ∧ (empty_tag_at row property_name_path
       ∨ empty_tag_at row property_value_path).
Proof.
  unfold parameters_row.
  destruct (_find_text (Some row) property_name_path) as [name|e1] eqn:Hn.
  - rewrite bind_Ok.
    destruct (_find_text (Some row) property_value_path) as [value|e2] eqn:Hv.
    + rewrite bind_Ok. split.
      * by repeat case_match.
      * intros (_ & [H|H]).
        -- assert (_find_text (Some row) property_name_path
                   = Raise IndexError) as Hr
             by (by apply _find_text_raises_iff).
           by rewrite Hn in Hr.
        -- assert (_find_text (Some row) property_value_path
                   = Raise IndexError) as Hr
             by (by apply _find_text_raises_iff).
           by rewrite Hv in Hr.
    + rewrite bind_Raise. apply _find_text_raises_iff in Hv as [-> Hv].
      split; [intros [= <-]; by auto | by intros [-> _]].
  - rewrite bind_Raise. apply _find_text_raises_iff in Hn as [-> Hn].
    split; [intros [= <-]; by auto | by intros [-> _]].
Qed.

Lemma parameters_rows_raise_iff rows parameters e :
  for_each parameters_row rows parameters = Raise e
  ↔ e = IndexError
    ∧ Exists (fun row => empty_tag_at row property_name_path
                         ∨ empty_tag_at row property_value_path) rows.
Proof.
  revert parameters. induction rows as [|row rows IH]; intros parameters.
  - cbn [for_each]. split; [done|]. intros [_ H]. by apply Exists_nil in H.
  - cbn [for_each]. rewrite Exists_cons.
    destruct (parameters_row parameters row) as [p1|e1] eqn:E.
    + rewrite bind_Ok, IH. split.
      * intros [-> H]. by auto.
      * intros [-> [H|H]]; [|done].
        assert (parameters_row parameters row = Raise IndexError) as Hr
          by (by apply parameters_row_raises_iff).
        by rewrite E in Hr.
    + rewrite bind_Raise. apply parameters_row_raises_iff in E as [-> E].
      split; [intros [= <-]; by auto | by intros [-> _]].
Qed.

(** X7: [_get_parameters] raises exactly when some row of the details
    table has a name cell or a value cell that is a tag without contents;
    what it raises is [IndexError]. *)
Theorem _get_parameters_raises_iff content_main table e :
  _find_tag (Some content_main) details_table_path = Some table →
  _get_parameters content_main = Raise e
  ↔ e = IndexError
    ∧ Exists (fun row => empty_tag_at row property_name_path
                         ∨ empty_tag_at row property_value_path)
             (Bs4.find_all table "tr" []).
Proof.
  intros Ht. unfold _get_parameters. rewrite Ht.
  destruct (Bs4.find_all table "tr" []) as [|row rows].
  - split; [done|]. intros [_ H]. by apply Exists_nil in H.
  - apply parameters_rows_raise_iff.
Qed.

Lemma _get_parameters_raises_iff_witness :
  _get_parameters
    (Page.main
       [Page.details
          [Page.detail_row [NavigableString "Thread"] [NavigableString "M3"];
           Page.detail_row [NavigableString "Finish"] []]])
  = Raise IndexError.
Proof.
  apply (_get_parameters_raises_iff
           (Page.main
              [Page.details
                 [Page.detail_row [NavigableString "Thread"]
                                  [NavigableString "M3"];
                  Page.detail_row [NavigableString "Finish"] []]])
           (Page.details
              [Page.detail_row [NavigableString "Thread"]
                               [NavigableString "M3"];
               Page.detail_row [NavigableString "Finish"] []])
           IndexError eq_refl).
  split; [reflexivity|]. apply Exists_cons. right. apply Exists_cons. left.
  right. exists (Tag "td" (Page.class "property-value") []).
  split; reflexivity.
Defined.

Lemma add_rows_lookup cells m name value :
  fold_left add_row cells m !! name = Some value →
  m !! name = Some value
  ∨ ((name, value) ∈ cells ∧ Spec.row_counts name value = true).
Proof.
  revert m. induction cells as [|[n v] cells IH]; intros m; [by left|].
  cbn [fold_left]. intros H. destruct (IH _ H) as [Hm|[Hin Hc]].
  - unfold add_row in Hm. cbn [fst snd] in Hm.
    destruct (Spec.row_counts n v) eqn:E; [|by left].
    destruct (decide (n = name)) as [->|Hne].
    + rewrite lookup_insert_eq in Hm. simplify_eq. right.
      split; [by left | done].
    + rewrite lookup_insert_ne in Hm by done. by left.
  - right. split; [by right | done].
Qed.

Lemma row_counts_true name value :
  Spec.row_counts name value = true →
  name ≠ EmptyString ∧ value ≠ EmptyString
  ∧ ∀ word, word ∈ ["bolt depot"; "category"; "subcategory"] →
            Py.contains word (Py.lower name) = false.
Proof.
  unfold Spec.row_counts. rewrite !andb_true_iff, negb_true_iff.
  intros [[Hn Hv] Hw]. split; [by destruct name|]. split; [by destruct value|].
  intros word Hin. cbn [existsb] in Hw.
  apply orb_false_iff in Hw as [H1 Hw].
  apply orb_false_iff in Hw as [H2 Hw].
  apply orb_false_iff in Hw as [H3 _].
  repeat (apply elem_of_cons in Hin as [->|Hin]; [done|]).
  by apply elem_of_nil in Hin.
Qed.

(** X8: in a mapping that [_get_parameters] returns, no name and no value
    is empty, both are clean texts, and no name holds, in lower case, any
    of [bolt depot], [category], [subcategory]. *)
Theorem _get_parameters_entries content_main parameters name value :
  _get_parameters content_main = Ok parameters →
  parameters !! name = Some value →
  name ≠ EmptyString ∧ value ≠ EmptyString
  ∧ Spec.collapsed name = true ∧ Spec.collapsed value = true
  ∧ ∀ word, word ∈ ["bolt depot"; "category"; "subcategory"] →
            Py.contains word (Py.lower name) = false.
Proof.
  unfold _get_parameters.
  destruct (_find_tag (Some content_main) details_table_path) as [table|];
    [|by intros [= <-]].
  intros Hp Hl.
  assert (∃ cells : list (string * string),
             Forall2 (fun row cell =>
                        _find_text (Some row) property_name_path = Ok cell.1
                        ∧ _find_text (Some row) property_value_path = Ok cell.2)
                     (Bs4.find_all table "tr" []) cells
             ∧ parameters = fold_left add_row cells ∅)
    as (cells & Hcells & ->).
  { destruct (Bs4.find_all table "tr" []) as [|row rows].
    - injection Hp as <-. exists []. by split.
    - by apply parameters_rows_return. }
  apply add_rows_lookup in Hl as [Hl|[Hin Hc]]; [by rewrite lookup_empty in Hl|].
  destruct (row_counts_true _ _ Hc) as (Hn & Hv & Hw).
  apply list_elem_of_lookup in Hin as [i Hi].
  destruct (Forall2_lookup_r _ _ _ _ _ Hcells Hi) as (row & _ & Hrn & Hrv).
  cbn [fst snd] in Hrn, Hrv.
  repeat split; try done; by eapply _find_text_collapsed.
Qed.

Lemma _get_parameters_entries_witness :
  "Thread" ≠ EmptyString ∧ "M3 x 0.5" ≠ EmptyString
  ∧ Spec.collapsed "Thread" = true ∧ Spec.collapsed "M3 x 0.5" = true
  ∧ ∀ word, word ∈ ["bolt depot"; "category"; "subcategory"] →
            Py.contains word (Py.lower "Thread") = false.
Proof.
  apply (_get_parameters_entries
           (Page.main
              [Page.details
                 [Page.detail_row [NavigableString " Thread "]
                                  [NavigableString "M3  x 0.5"]]])
           {["Thread" := "M3 x 0.5"]});
    reflexivity.
Defined.

(** ** More on the price breaks *)

Lemma py_int_raises s e : Num.py_int s = Raise e → e = ValueError.
Proof.
  unfold Num.py_int. destruct (Num.drop_underscores _ _) as [t|];
    [|by intros [= <-]].
  destruct (Num.split_sign t) as [neg ds].
  destruct (Py.truthy ds && Num.all_digits ds); [|by intros [= <-]].
  destruct (_ <=? _)%Z; [done | by intros [= <-]].
Qed.

Lemma py_float_raises s e : Num.py_float s = Raise e → e = ValueError.
Proof.
  unfold Num.py_float. destruct (Num.drop_underscores _ _) as [t|];
    [|by intros [= <-]].
  destruct (Num.split_sign _) as [neg body].
  destruct (Num.parse_decimal body) as [[[m ex] [|c rest]]|];
    [done | by intros [= <-] |].
  destruct (Num.parse_inf_or_nan neg body); [done | by intros [= <-]].
Qed.

Lemma adjusted_quantity_of_raises label e :
  adjusted_quantity_of label = Raise e → e = ValueError.
Proof.
  unfold adjusted_quantity_of. destruct (String.eqb label "/ ea"); [done|].
  apply py_int_raises.
Qed.

Lemma truediv_by_zero x : Num.truediv x 0 = Raise ZeroDivisionError.
Proof. reflexivity. Qed.

Lemma truediv_raises x n e :
  Num.truediv x n = Raise e → e = ZeroDivisionError ∨ e = OverflowError.
Proof.
  unfold Num.truediv, Num.float_of_int.
  destruct (binary_normalize _ _ _ _ _) as [s| | |s m ex]; cbn.
  - intros [= <-]. by left.
  - intros [= <-]. by right.
  - done.
  - done.
Qed.

(** What one cell can do: leave the mapping, set the entry of a lot size
    other than 0, or raise something other than [ValueError]. *)
Lemma pricing_cell_outcome price_breaks cell :
  match pricing_cell price_breaks cell with
  | Ok price_breaks' =>
      price_breaks' = price_breaks
      ∨ ∃ lot unit_price,
          lot ≠ 0%Z ∧ price_breaks' = <[lot := unit_price]> price_breaks
  | Raise e => e = IndexError ∨ e = ZeroDivisionError ∨ e = OverflowError
  end.
Proof.
  unfold pricing_cell.
  destruct (_find_text (Some cell) price_break_path) as [price_break|e] eqn:Hp.
  2:{ rewrite bind_Raise. left. by apply _find_text_raises_iff in Hp as [-> _]. }
  rewrite bind_Ok.
  destruct (_find_text (Some cell) per_qty_path) as [qty|e] eqn:Hq.
  2:{ rewrite bind_Raise. left. by apply _find_text_raises_iff in Hq as [-> _]. }
  rewrite bind_Ok.
  destruct (negb (Py.truthy price_break) || negb (Py.truthy qty)); [by left|].
  destruct (adjusted_quantity_of qty) as [lot|e] eqn:Hlot.
  2:{ apply adjusted_quantity_of_raises in Hlot as ->. by left. }
  cbn [except_ValueError]. rewrite bind_Ok.
  destruct (Num.py_float _) as [price|e] eqn:Hprice.
  2:{ apply py_float_raises in Hprice as ->. by left. }
  cbn [except_ValueError]. rewrite bind_Ok.
  destruct (Num.truediv price lot) as [unit_price|e] eqn:Hdiv.
  - rewrite bind_Ok. right. exists lot, (Num.round3 unit_price).
    split; [|done]. intros ->. by rewrite truediv_by_zero in Hdiv.
  - rewrite bind_Raise. right. by apply truediv_raises in Hdiv.
Qed.

Lemma pricing_cells_outcome cells price_breaks :
  match for_each pricing_cell cells price_breaks with
  | Ok price_breaks' =>
      price_breaks !! 0%Z = None → price_breaks' !! 0%Z = None
  | Raise e => e = IndexError ∨ e = ZeroDivisionError ∨ e = OverflowError
  end.
Proof.
  revert price_breaks. induction cells as [|cell cells IH];
    intros price_breaks; [by cbn [for_each]|].
  cbn [for_each]. pose proof (pricing_cell_outcome price_breaks cell) as H.
  destruct (pricing_cell price_breaks cell) as [pb1|e]; [|done].
  rewrite bind_Ok. specialize (IH pb1).
  destruct (for_each pricing_cell cells pb1) as [pb2|e]; [|done].
  intros H0. apply IH. destruct H as [->|(lot & v & Hlot & ->)]; [done|].
  by rewrite lookup_insert_ne.
Qed.

Lemma _get_pricing_outcome content_main part_id :
  match _get_pricing content_main part_id with
  | Ok price_breaks => price_breaks !! 0%Z = None
  | Raise e => e = IndexError ∨ e = ZeroDivisionError ∨ e = OverflowError
  end.
Proof.
  unfold _get_pricing.
  destruct (_find_tag _ pricing_table_path) as [table|]; [|done].
  destruct (_find_tag _ (pricing_row_path part_id)) as [row|]; [|done].
  destruct (Bs4.find_all row "td" []) as [|cell cells]; [done|].
  pose proof (pricing_cells_outcome (cell :: cells) ∅) as H.
  destruct (for_each _ _ _); [|done]. by apply H.
Qed.

Lemma _get_pricing_outcome_raise content_main part_id e :
  _get_pricing content_main part_id = Raise e →
  e = IndexError ∨ e = ZeroDivisionError ∨ e = OverflowError.
Proof.
  intros H. pose proof (_get_pricing_outcome content_main part_id) as Ho.
  by rewrite H in Ho.
Qed.

(** X9: a mapping that [_get_pricing] returns has no entry for the lot
    size 0. *)
Theorem _get_pricing_no_zero_lot content_main part_id price_breaks :
  _get_pricing content_main part_id = Ok price_breaks →
  price_breaks !! 0%Z = None.
Proof.
  intros H. pose proof (_get_pricing_outcome content_main part_id) as Ho.
  by rewrite H in Ho.
Qed.

Lemma _get_pricing_no_zero_lot_witness :
  (<[1000%Z := Spec.float_0_012]> {[1%Z := Spec.float_1_23]}
   : gmap Z spec_float) !! 0%Z = None.
Proof.
  apply (_get_pricing_no_zero_lot
           (Page.main
              [Page.pricing "123"
                 [Page.price_cell "$1.23" "/ ea";
                  Page.price_cell "$12.00" "/ 1,000"]]) "123").
  vm_compute. reflexivity.
Defined.

(** X10: [_get_pricing] never lets a [ValueError] out, the exception that
    [int] and [float] raise on a label: what it can raise is an
    [IndexError], a [ZeroDivisionError] or an [OverflowError]. *)
Theorem _get_pricing_raises content_main part_id e :
  _get_pricing content_main part_id = Raise e →
  e = IndexError ∨ e = ZeroDivisionError ∨ e = OverflowError.
Proof.
  intros H. pose proof (_get_pricing_outcome content_main part_id) as Ho.
  by rewrite H in Ho.
Qed.

Lemma _get_pricing_raises_witness :
  OverflowError = IndexError ∨ OverflowError = ZeroDivisionError
  ∨ OverflowError = OverflowError.
Proof.
  apply (_get_pricing_raises
           (Page.main
              [Page.pricing "123"
                 [Page.price_cell "$1.00"
                    ("/ 1,000,000,000,000,000,000,000,000,000,000,000,000,000,"
                     +:+ "000,000,000,000,000,000,000,000,000,000,000,000,000,"
                     +:+ "000,000,000,000,000,000,000,000,000,000,000,000,000,"
                     +:+ "000,000,000,000,000,000,000,000,000,000,000,000,000,"
                     +:+ "000,000,000,000,000,000,000,000,000,000,000,000,000,"
                     +:+ "000,000,000,000,000,000,000,000,000,000,000,000,000,"
                     +:+ "000,000,000,000,000,000,000,000,000,000,000,000,000,"
                     +:+ "000,000,000,000,000,000,000,000,000,000,000,000,000")]])
           "123").
  vm_compute. reflexivity.
Defined.

(** ** More on [search] *)

Lemma fetch_three scrape scrape_url :
  fetch scrape scrape_url 0 3
  = match scrape scrape_url 0 with
    | Some page => Some page
    | None =>
        match scrape scrape_url 1 with
        | Some page => Some page
        | None => scrape scrape_url 2
        end
    end.
Proof.
  cbn [fetch]. by destruct (scrape scrape_url 0), (scrape scrape_url 1),
                          (scrape scrape_url 2).
Qed.

Lemma is_product_page_raises soup e :
  is_product_page soup = Raise e → e = IndexError.
Proof.
  unfold is_product_page.
  destruct (_find_text _ _) as [text|e'] eqn:E; [done|].
  rewrite bind_Raise. intros [= <-].
  by apply _find_text_raises_iff in E as [-> _].
Qed.

Lemma _get_category_path_raises content_main e :
  _get_category_path content_main = Raise e → e = IndexError.
Proof.
  unfold _get_category_path, index_last.
  destruct (_find_tag _ _) as [nav|]; [|done].
  destruct (Bs4.find_all nav "a" []) as [|tag tags]; [done|]. cbv zeta.
  destruct (last _) as [t1|]; [|by intros [= <-]]. rewrite bind_Ok.
  destruct (last _) as [t2|]; [done | by intros [= <-]].
Qed.

Lemma _get_parameters_raises content_main e :
  _get_parameters content_main = Raise e → e = IndexError.
Proof.
  unfold _get_parameters.
  destruct (_find_tag _ _) as [table|]; [|done].
  destruct (Bs4.find_all table "tr" []) as [|row rows]; [done|].
  intros H. by apply parameters_rows_raise_iff in H as [-> _].
Qed.

Lemma _scrape_api_part_raises soup part_id e :
  _scrape_api_part soup part_id = Raise e →
  e = IndexError ∨ e = ZeroDivisionError ∨ e = OverflowError.
Proof.
  unfold _scrape_api_part.
  destruct (_find_tag _ _) as [content_main|]; [|done].
  destruct (_get_description content_main) as [d|e1] eqn:Hd.
  2:{ rewrite bind_Raise. intros [= <-]. left.
      unfold _get_description in Hd.
      by apply _find_text_raises_iff in Hd as [-> _]. }
  rewrite bind_Ok. destruct (negb (Py.truthy d)); [done|].
  destruct (_get_pricing content_main part_id) as [pb|e1] eqn:Hpb.
  2:{ rewrite bind_Raise. intros [= <-].
      by eapply _get_pricing_outcome_raise. }
  rewrite bind_Ok.
  destruct (_get_parameters content_main) as [ps|e1] eqn:Hps.
  2:{ rewrite bind_Raise. intros [= <-]. left.
      by apply _get_parameters_raises in Hps. }
  rewrite bind_Ok.
  destruct (_get_category_path content_main) as [path|e1] eqn:Hc.
  2:{ rewrite bind_Raise. intros [= <-]. left.
      by apply _get_category_path_raises in Hc. }
  rewrite bind_Ok. by destruct path.
Qed.

(** X13: [search] asks for the product page of the search term at most
    three times.  When none of the three attempts gives a usable response,
    it logs that the URL did not respond and returns no record; otherwise
    the first usable response alone decides the result, as if it had come
    at once. *)
Theorem search_retries scrape search_term :
  ((∀ attempt, attempt < 3 →
               scrape (PRODUCT_URL search_term) attempt = None) →
   search scrape search_term
   = (["failed to search part at BoltDepot (url "
       +:+ "https://boltdepot.com/Product-Details?product=" +:+ search_term
       +:+ " did not respond)"], Ok ([], 0)))
  ∧ (∀ attempt page,
       attempt < 3 →
       scrape (PRODUCT_URL search_term) attempt = Some page →
       (∀ earlier, earlier < attempt →
                   scrape (PRODUCT_URL search_term) earlier = None) →
       search scrape search_term = search (fun _ _ => Some page) search_term).
Proof.
  split.
  - intros H. unfold search. rewrite fetch_three, !H by lia. done.
  - intros attempt page Hlt Hpage Hearlier. unfold search.
    rewrite !fetch_three.
    destruct attempt as [|[|[|attempt]]]; [| | |lia].
    + by rewrite Hpage.
    + by rewrite (Hearlier 0), Hpage by lia.
    + by rewrite (Hearlier 0), (Hearlier 1), Hpage by lia.
Qed.

Lemma search_retries_witness :
  search (fun _ attempt =>
            match attempt with
            | 2 => Some (Tag "[document]" []
                             [Page.main [Page.link "Page not found"]])
            | _ => None
            end) "9999"
  = search (fun _ _ =>
              Some (Tag "[document]" []
                        [Page.main [Page.link "Page not found"]])) "9999".
Proof.
  apply (proj2 (search_retries _ "9999") 2); [lia | reflexivity |].
  intros [|[|earlier]] H; [reflexivity | reflexivity | lia].
Defined.

(** X15: [search] has no handler of its own: when it raises, nothing was
    logged, the exception comes from the validation or from the assembly
    of the record, and it is an [IndexError], a [ZeroDivisionError] or an
    [OverflowError]. *)
Theorem search_raises scrape search_term warnings e :
  search scrape search_term = (warnings, Raise e) →
  warnings = []
  ∧ (e = IndexError ∨ e = ZeroDivisionError ∨ e = OverflowError)
  ∧ ∃ soup,
      fetch scrape (PRODUCT_URL search_term) 0 3 = Some soup
      ∧ (is_product_page soup = Raise e
         ∨ (is_product_page soup = Ok true
            ∧ _scrape_api_part soup search_term = Raise e)).
Proof.
  unfold search. destruct (fetch _ _ _ _) as [soup|]; [|done].
  destruct (is_product_page soup) as [[|]|e1] eqn:Hv; [|done|].
  - destruct (_scrape_api_part soup search_term) as [[part|]|e1] eqn:E;
      [done | done |].
    intros [= <- <-]. split; [done|].
    split; [by eapply _scrape_api_part_raises|].
    exists soup. split; [done | by right].
  - intros [= <- <-]. split; [done|].
    split; [left; by eapply is_product_page_raises|].
    exists soup. split; [done | by left].
Qed.

Lemma search_raises_witness :
  search (fun _ _ =>
            Some (Tag "[document]" []
                    [Page.main
                       [Page.breadcrumb ["Product Catalog"; "Bolts"];
                        Page.elem "h1" [] "Hex bolt";
                        Page.pricing "123"
                          [Page.price_cell "$5.00" "/ 0"]]])) "123"
  = ([], Raise ZeroDivisionError).
Proof.
  destruct (search (fun _ _ =>
            Some (Tag "[document]" []
                    [Page.main
                       [Page.breadcrumb ["Product Catalog"; "Bolts"];
                        Page.elem "h1" [] "Hex bolt";
                        Page.pricing "123"
                          [Page.price_cell "$5.00" "/ 0"]]])) "123")
    as [warnings [result|e]] eqn:E; [discriminate E|].
  destruct (search_raises _ _ _ _ E) as (-> & _ & _).
  injection E as <-. reflexivity.
Defined.

(** X16: on a page that was fetched, the warning that the part found
    could not be parsed means that the page passed the validation and
    that what was empty is the description, or the category path after
    the price breaks and the parameters were decoded. *)
Theorem search_parse_warning scrape search_term soup outcome :
  fetch scrape (PRODUCT_URL search_term) 0 3 = Some soup →
  search scrape search_term
  = (["failed to parse found part at BoltDepot (url "
      +:+ PRODUCT_URL search_term +:+ ")"], outcome) →
  outcome = Ok ([], 0)
  ∧ is_product_page soup = Ok true
  ∧ ∃ content_main,
      _find_tag (Some soup) [content_main_step] = Some content_main
      ∧ (_get_description content_main = Ok EmptyString
         ∨ ∃ d pb ps,
             _get_description content_main = Ok d
             ∧ _get_pricing content_main search_term = Ok pb
             ∧ _get_parameters content_main = Ok ps
             ∧ _get_category_path content_main = Ok []).
Proof.
  intros Hfetch. unfold search. rewrite Hfetch.
  destruct (is_product_page soup) as [[|]|] eqn:Hv; [|done..].
  destruct (is_product_page_has_main _ Hv) as [content_main Hm].
  destruct (_scrape_api_part soup search_term) as [[part|]|] eqn:E;
    [done | | done].
  intros [= <-]. split; [done|]. split; [done|].
  exists content_main. split; [done|].
  unfold _scrape_api_part in E. rewrite Hm in E.
  destruct (_get_description content_main) as [d|]; [|done].
  rewrite bind_Ok in E. destruct d as [|c d]; [by left|].
  cbn [Py.truthy negb] in E.
  destruct (_get_pricing content_main search_term) as [pb|]; [|done].
  rewrite bind_Ok in E.
  destruct (_get_parameters content_main) as [ps|]; [|done].
  rewrite bind_Ok in E.
  destruct (_get_category_path content_main) as [[|t path]|]; [|done..].
  right. by exists (String c d), pb, ps.
Qed.

Lemma search_parse_warning_witness :
  is_product_page
    (Tag "[document]" []
         [Page.main [Page.link "Product Catalog";
                     Page.elem "h1" [] "  "]])
  = Ok true.
Proof.
  apply (search_parse_warning (fun _ _ =>
           Some (Tag "[document]" []
                   [Page.main [Page.link "Product Catalog";
                               Page.elem "h1" [] "  "]])) "123" _
           (Ok ([], 0)));
    reflexivity.
Defined.

(** ** The validator, and where the price breaks come from *)

(** X17: a page passes the validation exactly when it has a main content
    region, the first link below it has contents, and the text of the
    first of these, cleaned and lower-cased, is [product catalog]. *)
Theorem is_product_page_true_iff soup :
  is_product_page soup = Ok true
  ↔ ∃ content_main link first rest,
      _find_tag (Some soup) [content_main_step] = Some content_main
      ∧ _find_tag (Some content_main) [StepStr "a"] = Some link
      ∧ Bs4.contents link = first :: rest
      ∧ Py.lower (clean_text (Bs4.get_text first)) = "product catalog".
Proof.
  unfold is_product_page, _find_text.
  change [content_main_step; StepStr "a"]
    with ([content_main_step] ++ [StepStr "a"]).
  rewrite _find_tag_app.
  destruct (_find_tag (Some soup) [content_main_step])
    as [content_main|] eqn:Em.
  - destruct (_find_tag (Some content_main) [StepStr "a"])
      as [link|] eqn:El.
    + destruct (Bs4.contents link) as [|first rest] eqn:E; cbn [index0].
      * rewrite bind_Raise. split; [done|].
        intros (cm & l & f & r & Hcm & Hl & Hc & _).
        injection Hcm as <-. rewrite El in Hl. injection Hl as <-.
        by rewrite E in Hc.
      * rewrite !bind_Ok. split.
        -- intros [= H]. apply String.eqb_eq in H.
           by exists content_main, link, first, rest.
        -- intros (cm & l & f & r & Hcm & Hl & Hc & H).
           injection Hcm as <-. rewrite El in Hl. injection Hl as <-.
           rewrite E in Hc. injection Hc as <- <-.
           cbn [mret result_ret]. f_equal. by apply String.eqb_eq.
    + rewrite bind_Ok. split; [done|].
      intros (cm & l & f & r & Hcm & Hl & _).
      injection Hcm as <-. by rewrite El in Hl.
  - rewrite _find_tag_absent, bind_Ok. split; [done|].
    by intros (cm & l & f & r & Hcm & _).
Qed.

Lemma is_product_page_true_iff_witness :
  is_product_page
    (Tag "[document]" []
         [Page.main [Page.elem "a" [] "  PRODUCT
            catalog "]])
  = Ok true.
Proof.
  apply (proj2 (is_product_page_true_iff _)).
  exists (Page.main [Page.elem "a" [] "  PRODUCT
            catalog "]),
         (Page.elem "a" [] "  PRODUCT
            catalog "),
         (NavigableString "  PRODUCT
            catalog "), [].
  repeat split; reflexivity.
Defined.

Lemma pricing_cell_sound price_breaks cell price_breaks' :
  pricing_cell price_breaks cell = Ok price_breaks' →
  price_breaks' = price_breaks
  ∨ ∃ lot unit_price,
      priced_by cell lot unit_price
      ∧ price_breaks' = <[lot := unit_price]> price_breaks.
Proof.
  unfold pricing_cell.
  destruct (_find_text (Some cell) price_break_path)
    as [price_break|] eqn:Hp; [|done].
  rewrite bind_Ok.
  destruct (_find_text (Some cell) per_qty_path) as [qty|] eqn:Hq; [|done].
  rewrite bind_Ok. destruct price_break as [|c rest].
  { intros [= <-]. by left. }
  cbn [Py.truthy negb orb Py.slice_from].
  destruct (negb (Py.truthy qty)); [intros [= <-]; by left|].
  destruct (adjusted_quantity_of qty) as [lot|[]] eqn:Hlot;
    cbn [except_ValueError]; try done; [|intros [= <-]; by left].
  rewrite bind_Ok.
  destruct (Num.py_float rest) as [price|[]] eqn:Hprice;
    cbn [except_ValueError]; try done; [|intros [= <-]; by left].
  rewrite bind_Ok.
  destruct (Num.truediv price lot) as [quotient|] eqn:Hdiv; [|done].
  rewrite bind_Ok. intros [= <-]. right.
  exists lot, (Num.round3 quotient). split; [|done].
  by exists c, rest, qty, price, quotient.
Qed.

Lemma pricing_cells_sound cells price_breaks price_breaks' lot unit_price :
  for_each pricing_cell cells price_breaks = Ok price_breaks' →
  price_breaks' !! lot = Some unit_price →
  price_breaks !! lot = Some unit_price
  ∨ ∃ cell, In cell cells ∧ priced_by cell lot unit_price.
Proof.
  revert price_breaks. induction cells as [|cell cells IH];
    intros price_breaks; cbn [for_each].
  - intros [= <-] H. by left.
  - destruct (pricing_cell price_breaks cell) as [pb1|] eqn:E; [|done].
    rewrite bind_Ok. intros Hrest Hl.
    destruct (IH _ Hrest Hl) as [H1|(cell' & Hin & Hpriced)].
    + destruct (pricing_cell_sound _ _ _ E) as [->|(l & u & Hpriced & ->)].
      * by left.
      * destruct (decide (l = lot)) as [->|Hne].
        -- rewrite lookup_insert_eq in H1. simplify_eq. right.
           exists cell. split; [by left | done].
        -- rewrite lookup_insert_ne in H1 by done. by left.
    + right. exists cell'. split; [by right | done].
Qed.

(** X18: every entry of a mapping that [_get_pricing] returns comes from a
    cell of the row of the part: some cell of that row decodes to the lot
    size and to the unit price of the entry. *)
Theorem _get_pricing_entries content_main part_id price_breaks lot unit_price :
  _get_pricing content_main part_id = Ok price_breaks →
  price_breaks !! lot = Some unit_price →
  ∃ table row cell,
    _find_tag (Some content_main) pricing_table_path = Some table
    ∧ _find_tag (Some table) (pricing_row_path part_id) = Some row
    ∧ In cell (Bs4.find_all row "td" [])
    ∧ priced_by cell lot unit_price.
Proof.
  unfold _get_pricing.
  destruct (_find_tag _ pricing_table_path) as [table|];
    [|intros [= <-] H; by rewrite lookup_empty in H].
  destruct (_find_tag _ (pricing_row_path part_id)) as [row|] eqn:Er;
    [|intros [= <-] H; by rewrite lookup_empty in H].
  intros Hcells Hl.
  assert (for_each pricing_cell (Bs4.find_all row "td" []) ∅
          = Ok price_breaks) as Hloop
    by (by destruct (Bs4.find_all row "td" [])).
  destruct (pricing_cells_sound _ _ _ _ _ Hloop Hl) as [H|(cell & Hin & Hp)].
  - by rewrite lookup_empty in H.
  - by exists table, row, cell.
Qed.

Lemma _get_pricing_entries_witness :
  ∃ table row cell,
    _find_tag (Some (Page.main
                       [Page.pricing "123"
                          [Page.price_cell "$1.23" "/ ea";
                           Page.price_cell "$12.00" "/ 1,000"]]))
              pricing_table_path = Some table
    ∧ _find_tag (Some table) (pricing_row_path "123") = Some row
    ∧ In cell (Bs4.find_all row "td" [])
    ∧ priced_by cell 1000 Spec.float_0_012.
Proof.
  apply (_get_pricing_entries _ "123"
           (<[1000%Z := Spec.float_0_012]> {[1%Z := Spec.float_1_23]})).
  - vm_compute. reflexivity.
  - reflexivity.
Defined.

(** ** Where an exception takes the place of a result *)

(** C6: the decoder does not decode every breadcrumb as the steps of the
    specification do.  When the catalog root aside one text remains and it
    looks like a size, those steps give the empty path, but the decoder
    raises [IndexError]: the first check removes the text, and the second
    looks at the last element of a path that is empty by then (line 335).
    The breadcrumb Product Catalog, Bolts, Hex Bolts, 3mm x 0.5mm decodes
    to Bolts, Hex Bolts, as specified. *)
Theorem _get_category_path_lone_size_raises :
  (∀ content_main nav text,
     _find_tag (Some content_main) [StepStr "nav"] = Some nav →
     Spec.without_root (Bs4.get_text <$> Bs4.find_all nav "a" []) = [text] →
     Spec.looks_like_size text = true →
     Spec.category_path (Bs4.get_text <$> Bs4.find_all nav "a" []) = []
     ∧ _get_category_path content_main = Raise IndexError)
  ∧ _get_category_path
      (Page.main [Page.breadcrumb
                    ["Product Catalog"; "Bolts"; "Hex Bolts"; "3mm x 0.5mm"]])
    = Ok ["Bolts"; "Hex Bolts"].
Proof.
  split; [|reflexivity].
  intros content_main nav text Hnav Hkept Hsize. split.
  - unfold Spec.category_path. rewrite Hkept.
    unfold Spec.drop_last_if at 2. cbn [last]. by rewrite Hsize.
  - destruct (Bs4.find_all nav "a" []) as [|tag tags] eqn:E; [done|].
    rewrite (_get_category_path_links _ _ _ _ Hnav E). cbv zeta.
    rewrite Hkept. cbn [index_last last]. rewrite bind_Ok, Hsize. done.
Qed.

Lemma _get_category_path_lone_size_raises_witness :
  Spec.category_path ["Product Catalog"; "3mm x 0.5mm"] = []
  ∧ _get_category_path
      (Page.main [Page.breadcrumb ["Product Catalog"; "3mm x 0.5mm"]])
    = Raise IndexError.
Proof.
  apply (proj1 _get_category_path_lone_size_raises
           (Page.main [Page.breadcrumb ["Product Catalog"; "3mm x 0.5mm"]])
           (Page.breadcrumb ["Product Catalog"; "3mm x 0.5mm"])
           "3mm x 0.5mm");
    reflexivity.
Defined.

(** C8: a row with a cell that is a tag without contents is not left out
    of the mapping as a row without text is.  The lookup of the cell's
    text raises [IndexError] (line 129), nothing catches it, and
    [_get_parameters] raises: the rows before it and after it are lost
    with it. *)
Theorem _get_parameters_empty_cell_raises content_main table before row after :
  _find_tag (Some content_main) details_table_path = Some table →
  Bs4.find_all table "tr" [] = before ++ row :: after →
  empty_tag_at row property_name_path ∨ empty_tag_at row property_value_path →
  _get_parameters content_main = Raise IndexError.
Proof.
  intros Htable Hrows Hempty. unfold _get_parameters. rewrite Htable.
  assert (for_each parameters_row (Bs4.find_all table "tr" []) ∅
          = Raise IndexError) as Hloop.
  { apply parameters_rows_raise_iff. split; [done|].
    rewrite Hrows. apply Exists_app. right. by apply Exists_cons_hd. }
  by destruct (Bs4.find_all table "tr" []).
Qed.

Lemma _get_parameters_empty_cell_raises_witness :
  _get_parameters
    (Page.main
       [Page.details
          [Page.detail_row [NavigableString "Thread"] [NavigableString "M3"];
           Page.detail_row [NavigableString "Length"] [];
           Page.detail_row [NavigableString "Head"] [NavigableString "Hex"]]])
  = Raise IndexError.
Proof.
  apply (_get_parameters_empty_cell_raises _
           (Page.details
              [Page.detail_row [NavigableString "Thread"] [NavigableString "M3"];
               Page.detail_row [NavigableString "Length"] [];
               Page.detail_row [NavigableString "Head"] [NavigableString "Hex"]])
           [Page.detail_row [NavigableString "Thread"] [NavigableString "M3"]]
           (Page.detail_row [NavigableString "Length"] [])
           [Page.detail_row [NavigableString "Head"] [NavigableString "Hex"]]);
    [reflexivity | reflexivity |].
  right. exists (Tag "td" (Page.class "property-value") []).
  split; reflexivity.
Defined.

(** C9: a fetched page without the marker is not always answered with the
    empty list.  When the first link of the main content region is a tag
    without contents, its text is empty and so differs from
    [product catalog], but the validator raises [IndexError] (line 129)
    instead of saying no, and [search], which has no handler, raises with
    it. *)
Theorem search_empty_first_link_raises scrape search_term soup link :
  fetch scrape (PRODUCT_URL search_term) 0 3 = Some soup →
  _find_tag (Some soup) [content_main_step; StepStr "a"] = Some link →
  Bs4.contents link = [] →
  Py.lower (Bs4.get_text link) ≠ "product catalog"
  ∧ is_product_page soup = Raise IndexError
  ∧ search scrape search_term = ([], Raise IndexError).
Proof.
  intros Hfetch Hlink Hcontents.
  assert (is_product_page soup = Raise IndexError) as Hvalid.
  { unfold is_product_page, _find_text. by rewrite Hlink, Hcontents. }
  split; [|split; [exact Hvalid|]].
  - pose proof (_find_tag_is_tag _ _ _ Hlink) as Htag.
    destruct link as [name attrs cs| |]; [|done|done].
    cbn [Bs4.contents] in Hcontents. by subst cs.
  - unfold search. by rewrite Hfetch, Hvalid.
Qed.

Lemma search_empty_first_link_raises_witness :
  search (fun _ _ =>
            Some (Tag "[document]" []
                      [Page.main [Tag "a" [("name", AttrStr "top")] [];
                                  Page.elem "p" [] "Page not found"]]))
         "9999"
  = ([], Raise IndexError).
Proof.
  apply (search_empty_first_link_raises _ "9999"
           (Tag "[document]" []
                [Page.main [Tag "a" [("name", AttrStr "top")] [];
                            Page.elem "p" [] "Page not found"]])
           (Tag "a" [("name", AttrStr "top")] []));
    reflexivity.
Defined.

(** C5: an empty category path on a validated page is not always answered
    with the empty list and a warning.  The price breaks and the
    parameters are decoded before the category path is looked at
    (lines 167 to 171), and when one of them raises, [search] raises
    with it: no result, and no warning. *)
Theorem search_empty_category_path_raises
        scrape search_term soup content_main description e :
  fetch scrape (PRODUCT_URL search_term) 0 3 = Some soup →
  is_product_page soup = Ok true →
  _find_tag (Some soup) [content_main_step] = Some content_main →
  _get_description content_main = Ok description →
  description ≠ EmptyString →
  _get_category_path content_main = Ok [] →
  _get_pricing content_main search_term = Raise e
  ∨ (∃ price_breaks,
       _get_pricing content_main search_term = Ok price_breaks
       ∧ _get_parameters content_main = Raise e) →
  search scrape search_term = ([], Raise e).
Proof.
  intros Hfetch Hvalid Hmain Hd Hne _ Hraise.
  assert (_scrape_api_part soup search_term = Raise e) as Hpart.
  { unfold _scrape_api_part. rewrite Hmain, Hd, bind_Ok.
    destruct description as [|c d]; [done|]. cbn [Py.truthy negb].
    destruct Hraise as [Hpb|(pb & Hpb & Hps)].
    - by rewrite Hpb.
    - by rewrite Hpb, bind_Ok, Hps. }
  unfold search. by rewrite Hfetch, Hvalid, Hpart.
Qed.

Lemma search_empty_category_path_raises_witness :
  search (fun _ _ =>
            Some (Tag "[document]" []
                      [Page.main
                         [Page.link "Product Catalog";
                          Page.elem "h1" [] "Hex bolt";
                          Page.pricing "123"
                            [Page.price_cell "$5.00" "/ 0"]]]))
         "123"
  = ([], Raise ZeroDivisionError).
Proof.
  apply (search_empty_category_path_raises _ "123"
           (Tag "[document]" []
                [Page.main
                   [Page.link "Product Catalog";
                    Page.elem "h1" [] "Hex bolt";
                    Page.pricing "123" [Page.price_cell "$5.00" "/ 0"]]])
           (Page.main
              [Page.link "Product Catalog";
               Page.elem "h1" [] "Hex bolt";
               Page.pricing "123" [Page.price_cell "$5.00" "/ 0"]])
           "Hex bolt");
    [reflexivity | reflexivity | reflexivity | reflexivity | discriminate
    | reflexivity |].
  left. reflexivity.
Defined.
